(** * mcd-moves: the trip page pipeline of [src/js/trip.js]

    A shallow embedding of the data pipeline of the trip page script:
    the geometry extractor ([extractCoords], [extractCoordsFromGeometry],
    [getFirstFeatureProps]), the day loader ([loadDayGeoJSON]), the
    concurrent fan-out ([loadAllDays], through [Promise.all]) and the
    aggregation done by [initTripPage].

    Conventions of the embedding.
    - A JavaScript value is a [value]: what [JSON.parse] can produce, plus
      [undefined].  An object is the list of its own properties.
    - A JavaScript number is given by a rational ([Q]): [VNum q] is the
      double nearest to [q], and the result of an addition or a division
      is the exact value of the double the script computes ([add64],
      [div64], on the binary64 operations of [SpecFloat]).  NaN, the
      infinities and -0 are outside the model.
    - Code that may throw returns a [Res]: [inl] of the error thrown, [inr]
      of the value returned.
    - What the script takes from its host page and from the other scripts
      of the site (the network, the metric calculator, the formatting
      helpers, number printing) is a field of the record [Host]. *)

From Stdlib Require Import List String Ascii ZArith QArith Qround Bool Lia.
From Stdlib Require Import Permutation.
From Stdlib Require Import DecimalString.
From Stdlib Require Import SpecFloat.
Import ListNotations.

Set Warnings "-register-all".
Open Scope string_scope.
Open Scope list_scope.

(** ** JavaScript values and errors *)

Inductive value : Type :=
| VUndef
| VNull
| VBool (b : bool)
| VNum (q : Q)
| VStr (s : string)
| VArr (items : list value)
| VObj (fields : list (string * value)).

(** An error object; [message] is its [.message].  The text of a runtime
    [TypeError] is the engine's (V8's wording is used). *)
Inductive JsError : Type :=
| Error (msg : string)
| TypeError (msg : string).

Definition message (e : JsError) : string :=
  match e with
  | Error m => m
  | TypeError m => m
  end.

Definition Res (A : Type) : Type := (JsError + A)%type.

Definition bind {A B : Type} (c : Res A) (k : A -> Res B) : Res B :=
  match c with
  | inl e => inl e
  | inr a => k a
  end.

Notation "'let*' x ':=' c 'in' k" := (bind c (fun x => k))
  (at level 10, x name, c at level 100, k at level 200, only parsing).

(** [!v] is [negb (truthy v)]. *)
Definition truthy (v : value) : bool :=
  match v with
  | VUndef | VNull => false
  | VBool b => b
  | VNum q => negb (Qeq_bool q 0)
  | VStr s => negb (s =? "")
  | VArr _ | VObj _ => true
  end.

(** [v != null] is [negb (nullish v)]. *)
Definition nullish (v : value) : bool :=
  match v with
  | VUndef | VNull => true
  | _ => false
  end.

(** [a || b] *)
Definition or_else (a b : value) : value := if truthy a then a else b.

(** [v === 'lit'] for a string literal. *)
Definition is_str (v : value) (lit : string) : bool :=
  match v with
  | VStr s => s =? lit
  | _ => false
  end.

(** [typeof v === 'object'] ([null] included, as in JavaScript). *)
Definition typeof_object (v : value) : bool :=
  match v with
  | VNull | VArr _ | VObj _ => true
  | _ => false
  end.

Definition isArray (v : value) : bool :=
  match v with
  | VArr _ => true
  | _ => false
  end.

(** The elements of an array. *)
Definition items (v : value) : list value :=
  match v with
  | VArr l => l
  | _ => []
  end.

Fixpoint lookup (k : string) (fs : list (string * value)) : option value :=
  match fs with
  | [] => None
  | (k', v) :: rest => if k' =? k then Some v else lookup k rest
  end.

Definition num_of_nat (n : nat) : Q := inject_Z (Z.of_nat n).

Definition type_name (v : value) : string :=
  match v with
  | VNull => "null"
  | _ => "undefined"
  end.

(** [v.k] for the property names the script reads.  None of them is
    inherited from a prototype, except [length] of arrays and strings. *)
Definition get (v : value) (k : string) : Res value :=
  match v with
  | VUndef | VNull =>
      inl (TypeError ("Cannot read properties of " ++ type_name v
                      ++ " (reading '" ++ k ++ "')")%string)
  | VObj fs => inr (match lookup k fs with Some x => x | None => VUndef end)
  | VArr l => inr (if k =? "length" then VNum (num_of_nat (List.length l)) else VUndef)
  | VStr s => inr (if k =? "length" then VNum (num_of_nat (String.length s)) else VUndef)
  | VBool _ | VNum _ => inr VUndef
  end.

(** [v[0]] *)
Definition get0 (v : value) : Res value :=
  match v with
  | VUndef | VNull =>
      inl (TypeError ("Cannot read properties of " ++ type_name v
                      ++ " (reading '0')")%string)
  | VArr l => inr (nth 0 l VUndef)
  | VStr s => inr (match s with String c _ => VStr (String c "") | EmptyString => VUndef end)
  | VObj fs => inr (match lookup "0" fs with Some x => x | None => VUndef end)
  | VBool _ | VNum _ => inr VUndef
  end.

(** The values a [for (const x of v)] loop visits. *)
Definition iterate (v : value) : Res (list value) :=
  match v with
  | VArr l => inr l
  | VStr s => inr (map (fun c => VStr (String c "")) (list_ascii_of_string s))
  | _ => inl (TypeError "object is not iterable")
  end.

(** [v.flat()]: only arrays have the method. *)
Definition flat (v : value) : Res value :=
  match v with
  | VArr l =>
      inr (VArr (flat_map (fun x => match x with VArr ys => ys | _ => [x] end) l))
  | _ => inl (TypeError "(intermediate value).flat is not a function")
  end.

(** ** Geometry extractor (lines 174-205) *)

Definition extractCoordsFromGeometry (geometry : value) : Res value :=
  if negb (truthy geometry) then inr (VArr [])
  else
    let* t := get geometry "type" in
    if is_str t "LineString" then
      let* cs := get geometry "coordinates" in
      inr (or_else cs (VArr []))
    else if is_str t "MultiLineString" then
      let* cs := get geometry "coordinates" in
      flat (or_else cs (VArr []))
    else inr (VArr []).

(** The body of the [for ... of] loop of [extractCoords]: [Some c] when the
    loop returns [c], [None] when it runs to its end. *)
Fixpoint scan_features (features : list value) : Res (option value) :=
  match features with
  | [] => inr None
  | feature :: rest =>
      let* g := get feature "geometry" in
      let* c := extractCoordsFromGeometry g in
      let* len := get c "length" in
      if truthy len then inr (Some c) else scan_features rest
  end.

Definition extractCoords (geojson : value) : Res value :=
  if negb (truthy geojson) then inr (VArr [])
  else
    let* t := get geojson "type" in
    let* found :=
      (if is_str t "FeatureCollection" then
         let* fs := get geojson "features" in
         let* items := iterate (or_else fs (VArr [])) in
         scan_features items
       else inr None) in
    match found with
    | Some c => inr c
    | None =>
        if is_str t "Feature" then
          let* g := get geojson "geometry" in
          extractCoordsFromGeometry g
        else extractCoordsFromGeometry geojson
    end.

Definition getFirstFeatureProps (geojson : value) : Res value :=
  if negb (truthy geojson) then inr VNull
  else
    let* t := get geojson "type" in
    if is_str t "FeatureCollection" then
      let* fs := get geojson "features" in
      if negb (truthy fs) then inr VNull
      else
        let* f0 := get0 fs in
        if negb (truthy f0) then inr VNull
        else
          let* p := get f0 "properties" in
          inr (or_else p VNull)
    else if is_str t "Feature" then
      let* p := get geojson "properties" in
      inr (or_else p VNull)
    else inr VNull.

(** ** The host: network, sibling scripts, number printing *)

(** What [await fetch(url)] resolves to: [res.ok], [res.status] and the
    outcome of [await res.json()]. *)
Record Response : Type := mkResponse {
  res_ok : bool;
  res_status : Q;
  res_json : Res value
}.

(** [fetch] rejects ([inl]) on a network error.  [calcDistance],
    [calcElevationGain], [formatDate], [calcElapsedTime] and [formatNumber]
    are functions of the site that this script calls and does not define;
    the two metric functions may throw, the formatting helpers are taken
    to return.  [NumberToString] and [toFixed1] are the runtime's
    [String(n)] and [n.toFixed(1)]. *)
Record Host : Type := mkHost {
  fetch : string -> Res Response;
  calcDistance : value -> Res value;
  calcElevationGain : value -> Res value;
  formatDate : value -> value;
  calcElapsedTime : value -> value -> value -> value -> value;
  formatNumber : value -> string;
  NumberToString : Q -> string;
  toFixed1 : Q -> string
}.

(** ** The per-day result object (lines 127-137) *)

Record DayResult : Type := mkDayResult {
  index : nat;
  filename : value;
  url : string;
  ok : bool;
  geojson : value;
  dayNumber : value;
  distance : value;
  elevation : value;
  error : value
}.

Definition set_ok (b : bool) (r : DayResult) : DayResult :=
  mkDayResult (index r) (filename r) (url r) b (geojson r) (dayNumber r)
              (distance r) (elevation r) (error r).

Definition set_geojson (g : value) (r : DayResult) : DayResult :=
  mkDayResult (index r) (filename r) (url r) (ok r) g (dayNumber r)
              (distance r) (elevation r) (error r).

Definition set_dayNumber (d : value) (r : DayResult) : DayResult :=
  mkDayResult (index r) (filename r) (url r) (ok r) (geojson r) d
              (distance r) (elevation r) (error r).

Definition set_distance (d : value) (r : DayResult) : DayResult :=
  mkDayResult (index r) (filename r) (url r) (ok r) (geojson r) (dayNumber r)
              d (elevation r) (error r).

Definition set_elevation (e : value) (r : DayResult) : DayResult :=
  mkDayResult (index r) (filename r) (url r) (ok r) (geojson r) (dayNumber r)
              (distance r) e (error r).

Definition set_error (e : value) (r : DayResult) : DayResult :=
  mkDayResult (index r) (filename r) (url r) (ok r) (geojson r) (dayNumber r)
              (distance r) (elevation r) e.

(** The body of a [try] block that mutates [result]: the object as the
    block leaves it, and how the block ends. *)
Definition Try (A : Type) : Type := DayResult -> DayResult * Res A.

Definition try_bind {A B : Type} (c : Try A) (k : A -> Try B) : Try B :=
  fun r =>
    match c r with
    | (r', inl e) => (r', inl e)
    | (r', inr a) => k a r'
    end.

Definition lift {A : Type} (c : Res A) : Try A := fun r => (r, c).

Definition assign (f : DayResult -> DayResult) : Try unit :=
  fun r => (f r, inr tt).

Notation "'do*' x ':=' c 'in' k" := (try_bind c (fun x => k))
  (at level 10, x name, c at level 100, k at level 200, only parsing).

(** [(props && props.k != null)]: [Some props.k] when it holds. *)
Definition embedded (props : value) (k : string) : Res (option value) :=
  if truthy props then
    let* x := get props k in
    inr (if negb (nullish x) then Some x else None)
  else inr None.

(** ** Events the page observes *)

Inductive Event : Type :=
| EvFetch (u : string)
| EvSetText (id : string) (text : value)
| EvSetTitle (text : string)
| EvShowMetaError (msg : string)
| EvShowMapError (msg : string)
| EvBuildDayTable (days : list DayResult).

(** How a run of [initTripPage] stops before its last statement: an
    uncaught error, a [return;], an [await] that never resumes, a value
    that leaves the numeric fragment modelled here (one the script would
    coerce, or a number that is not a finite double other than -0), or
    the call of [buildDayTable]: what the presentation functions do, and
    whether they return, is not part of the run. *)
Inductive Stop : Type :=
| Thrown (e : JsError)
| EarlyReturn
| Pending
| OutsideModel
| HandedOver.

Definition Eff (A : Type) : Type := (list Event * (Stop + A))%type.

Definition eff_bind {A B : Type} (c : Eff A) (k : A -> Eff B) : Eff B :=
  match c with
  | (t, inl s) => (t, inl s)
  | (t, inr a) => let (t', r) := k a in (t ++ t', r)
  end.

Definition emit (ev : Event) : Eff unit := ([ev], inr tt).

Definition stop {A : Type} (s : Stop) : Eff A := ([], inl s).

Definition eff_res {A : Type} (c : Res A) : Eff A :=
  match c with
  | inl e => ([], inl (Thrown e))
  | inr a => ([], inr a)
  end.

Notation "'run*' x ':=' c 'in' k" := (eff_bind c (fun x => k))
  (at level 10, x name, c at level 100, k at level 200, only parsing).

(** ** [Promise.all] *)

Fixpoint set_slot {A : Type} (i : nat) (v : A) (slots : list (option A))
  : list (option A) :=
  match slots, i with
  | [], _ => []
  | _ :: rest, O => Some v :: rest
  | s :: rest, S j => s :: set_slot j v rest
  end.

(** The promises settle in the order [sched] lists their positions: a
    fulfilled one stores its value at its own position, the first
    rejected one rejects the whole. *)
Fixpoint settle {A : Type} (promises : list (Res A)) (sched : list nat)
         (slots : list (option A)) : Res (list (option A)) :=
  match sched with
  | [] => inr slots
  | i :: rest =>
      match nth_error promises i with
      | Some (inl e) => inl e
      | Some (inr v) => settle promises rest (set_slot i v slots)
      | None => settle promises rest slots
      end
  end.

Fixpoint all_filled {A : Type} (slots : list (option A)) : option (list A) :=
  match slots with
  | [] => Some []
  | None :: _ => None
  | Some v :: rest =>
      match all_filled rest with
      | Some vs => Some (v :: vs)
      | None => None
      end
  end.

(** [None]: still pending once [sched] is exhausted. *)
Definition Promise_all {A : Type} (promises : list (Res A)) (sched : list nat)
  : option (Res (list A)) :=
  match settle promises sched (repeat None (List.length promises)) with
  | inl e => Some (inl e)
  | inr slots =>
      match all_filled slots with
      | Some vs => Some (inr vs)
      | None => None
      end
  end.

(** [l.map((x, i) => f(x, i))] *)
Definition map_index {A B : Type} (f : A -> nat -> B) (l : list A) : list B :=
  map (fun p => f (snd p) (fst p)) (combine (seq 0 (List.length l)) l).

(** [Math.round]: to the nearest integer, halves upwards. *)
Definition Math_round (q : Q) : Z := Qfloor (q + (1 # 2)).

(** [Math.round] gives -0 on the numbers from -0.5 to 0, 0 excluded. *)
Definition rounds_to_negative_zero (q : Q) : bool :=
  Qle_bool (- (1 # 2)) q && negb (Qle_bool 0 q).

(** ** Double-precision arithmetic *)

Definition double_of_Z (z : Z) : spec_float :=
  match z with
  | Z0 => S754_zero false
  | Zpos p => S754_finite false p 0
  | Zneg p => S754_finite true p 0
  end.

(** The double nearest to [q] (ties to even): the number a literal
    denotes, and [q] itself when [q] is the value of a double. *)
Definition to_double (q : Q) : spec_float :=
  SFdiv 53 1024 (double_of_Z (Qnum q)) (S754_finite false (Qden q) 0).

(** The value of a finite double other than -0. *)
Definition of_double (f : spec_float) : option Q :=
  match f with
  | S754_zero false => Some 0
  | S754_finite sign m e =>
      let n := if sign then Zneg m else Zpos m in
      Some (Qred (match e with
                  | Zneg k => n # Pos.shiftl 1 (Npos k)
                  | _ => inject_Z (n * 2 ^ e)
                  end))
  | _ => None
  end.

(** [a + b] and [a / b] on numbers. *)
Definition add64 (a b : Q) : option Q :=
  of_double (SFadd 53 1024 (to_double a) (to_double b)).

Definition div64 (a b : Q) : option Q :=
  of_double (SFdiv 53 1024 (to_double a) (to_double b)).

(** [0 < q] *)
Definition gt0 (q : Q) : bool := negb (Qle_bool q 0).

Definition as_number (v : value) : option Q :=
  match v with
  | VNum q => Some q
  | _ => None
  end.

(** ** The script *)

Section Script.

Variable host : Host.

(** [String(v)], as a template literal and [+] with a string apply it.
    On a parsed object the inherited [toString] answers, unless an own
    property of that name hides it: the own value is not callable,
    [valueOf] returns the object itself, and the conversion throws. *)
Fixpoint ToString (v : value) : Res string :=
  match v with
  | VUndef => inr "undefined"
  | VNull => inr "null"
  | VBool true => inr "true"
  | VBool false => inr "false"
  | VNum q => inr (NumberToString host q)
  | VStr s => inr s
  | VArr l =>
      (fix join (xs : list value) : Res string :=
         match xs with
         | [] => inr ""
         | x :: rest =>
             let* a := (if nullish x then inr "" else ToString x) in
             match rest with
             | [] => inr a
             | _ :: _ => let* b := join rest in inr (a ++ "," ++ b)%string
             end
         end) l
  | VObj fs =>
      match lookup "toString" fs with
      | None => inr "[object Object]"
      | Some _ => inl (TypeError "Cannot convert object to primitive value")
      end
  end.

(** *** Day loader (lines 119-171) *)

(** The [try] block, lines 140-163. *)
Definition try_block (index : nat) (url : string) (isNewFormat : bool)
           (manualDist manualElev : value) : Try unit :=
  do* res := lift (fetch host url) in
  do* _ := lift (if negb (res_ok res)
                 then inl (Error ("HTTP " ++ NumberToString host (res_status res))%string)
                 else inr tt) in
  do* geojson := lift (res_json res) in
  do* _ := assign (set_geojson geojson) in
  do* _ := assign (set_ok true) in
  do* props := lift (getFirstFeatureProps geojson) in
  do* day := lift (embedded props "day") in
  do* _ := assign (set_dayNumber
                     (match day with
                      | Some d => d
                      | None => VNum (num_of_nat index + 1)
                      end)) in
  if isNewFormat then
    do* _ := assign (set_distance
                       (if negb (nullish manualDist) then manualDist else VNum 0)) in
    assign (set_elevation
              (if negb (nullish manualElev) then manualElev else VNum 0))
  else
    do* coords := lift (extractCoords geojson) in
    do* pd := lift (embedded props "distance_miles") in
    do* d := lift (match pd with
                   | Some x => inr x
                   | None => calcDistance host coords
                   end) in
    do* _ := assign (set_distance d) in
    do* pe := lift (embedded props "elevation_gain_ft") in
    do* e := lift (match pe with
                   | Some x => inr x
                   | None => calcElevationGain host coords
                   end) in
    assign (set_elevation e).

(** The [console.warn] of the [catch] clause only writes a diagnostic;
    it is not recorded. *)
Definition loadDayGeoJSON (tripId dataRoot : string) (entry : value) (index : nat)
  : Res DayResult :=
  let isNewFormat :=
    typeof_object entry && negb (match entry with VNull => true | _ => false end) in
  let* filename := (if isNewFormat then get entry "file" else inr entry) in
  let* manualDist := (if isNewFormat then get entry "distance_miles" else inr VNull) in
  let* manualElev := (if isNewFormat then get entry "elevation_gain_ft" else inr VNull) in
  let* file := ToString filename in
  let url := (dataRoot ++ "/" ++ tripId ++ "/" ++ file)%string in
  let result :=
    mkDayResult index filename url false VNull (VNum (num_of_nat index + 1))
                (VNum 0) (VNum 0) VNull in
  match try_block index url isNewFormat manualDist manualElev result with
  | (r, inr _) => inr r
  | (r, inl err) => inr (set_error (VStr (message err)) r)
  end.

(** *** Fan-out (lines 96-101) *)

Definition loadAllDays (tripId dataRoot : string) (dayFiles : list value)
           (sched : list nat) : option (Res (list DayResult)) :=
  let promises := map_index (loadDayGeoJSON tripId dataRoot) dayFiles in
  Promise_all promises sched.

(** *** Totals (lines 66-83) *)

(** The [for ... of validDays] loop, on numbers: [None] when a statistic
    is not a number or a total leaves the finite doubles. *)
Fixpoint sum_days (validDays : list DayResult) (totals : Q * Q) : option (Q * Q) :=
  match validDays with
  | [] => Some totals
  | day :: rest =>
      match as_number (distance day), as_number (elevation day) with
      | Some d, Some e =>
          match add64 (fst totals) d, add64 (snd totals) e with
          | Some totalDistance, Some totalElevation =>
              sum_days rest (totalDistance, totalElevation)
          | _, _ => None
          end
      | _, _ => None
      end
  end.

Definition trip_totals (dayResults : list DayResult) : option (Q * Q) :=
  sum_days (filter ok dayResults) (0, 0).

(** The text of lines 80-82: [None] when the quotient, or its rounding,
    leaves the model. *)
Definition vertPerMile (totalDistance totalElevation : Q) : option string :=
  if gt0 totalDistance then
    match div64 totalElevation totalDistance with
    | Some q =>
        if rounds_to_negative_zero q then None
        else Some (formatNumber host (VNum (inject_Z (Math_round q)))
                   ++ " ft/mi")%string
    | None => None
    end
  else Some "—".

(** *** Main entry point (lines 31-93) *)

Definition load_meta (metaUrl : string) : Res value :=
  let* res := fetch host metaUrl in
  if negb (res_ok res)
  then inl (Error ("HTTP " ++ NumberToString host (res_status res)
                   ++ " fetching " ++ metaUrl)%string)
  else res_json res.

(** Lines 44-55. *)
Definition render_header (tripId : string) (meta : value) : Eff unit :=
  run* title := eff_res (get meta "title") in
  run* _ := emit (EvSetText "trip-title" (or_else title (VStr tripId))) in
  run* description := eff_res (get meta "description") in
  run* _ := emit (EvSetText "trip-description" (or_else description (VStr ""))) in
  run* start_date := eff_res (get meta "start_date") in
  run* _ := emit (EvSetText "trip-start-date" (formatDate host start_date)) in
  run* end_date := eff_res (get meta "end_date") in
  run* _ := emit (EvSetText "trip-end-date" (formatDate host end_date)) in
  run* start_time := eff_res (get meta "start_time") in
  run* end_time := eff_res (get meta "end_time") in
  run* _ := emit (EvSetText "trip-elapsed"
                    (calcElapsedTime host start_date start_time end_date end_time)) in
  run* t := eff_res (ToString (or_else title (VStr tripId))) in
  emit (EvSetTitle (t ++ " — Hiking Journal")%string).

(** Lines 57-86: up to the call of [buildDayTable]. *)
Definition render_days (tripId dataRoot : string) (meta : value) (sched : list nat)
  : Eff unit :=
  run* days := eff_res (get meta "days") in
  let dayFiles := if isArray days then items days else [] in
  if (List.length dayFiles =? 0)%nat then
    run* _ := emit (EvShowMapError "No day files listed in meta.json.") in
    stop EarlyReturn
  else
    let promises := map_index (loadDayGeoJSON tripId dataRoot) dayFiles in
    let fetches :=
      flat_map (fun p => match p with inr r => [EvFetch (url r)] | inl _ => [] end)
               promises in
    match loadAllDays tripId dataRoot dayFiles sched with
    | None => (fetches, inl Pending)
    | Some (inl e) => (fetches, inl (Thrown e))
    | Some (inr dayResults) =>
        match trip_totals dayResults with
        | None => (fetches, inl OutsideModel)
        | Some (totalDistance, totalElevation) =>
            run* _ := (fetches, inr tt) in
            run* _ := emit (EvSetText "trip-total-distance"
                              (VStr (toFixed1 host totalDistance ++ " mi")%string)) in
            run* _ := (if rounds_to_negative_zero totalElevation
                       then stop OutsideModel else ([], inr tt)) in
            run* _ := emit (EvSetText "trip-total-elevation"
                              (VStr (formatNumber host
                                       (VNum (inject_Z (Math_round totalElevation)))
                                     ++ " ft")%string)) in
            match vertPerMile totalDistance totalElevation with
            | None => stop OutsideModel
            | Some text =>
                run* _ := emit (EvSetText "trip-vert-per-mile" (VStr text)) in
                run* _ := emit (EvBuildDayTable dayResults) in
                stop HandedOver
            end
        end
    end.

Definition initTripPage (tripId dataRoot : string) (sched : list nat) : Eff unit :=
  let metaUrl := (dataRoot ++ "/" ++ tripId ++ "/meta.json")%string in
  run* _ := emit (EvFetch metaUrl) in
  match load_meta metaUrl with
  | inl err =>
      run* _ := emit (EvShowMetaError (message err)) in
      stop EarlyReturn
  | inr meta =>
      run* _ := render_header tripId meta in
      render_days tripId dataRoot meta sched
  end.

End Script.

(** ** Vocabulary of the specification *)

(** A day entry: a bare file name (legacy), or an object whose [file] is a
    string (manual). *)
Definition is_day_entry (entry : value) : bool :=
  match entry with
  | VStr _ => true
  | VObj fs =>
      match lookup "file" fs with
      | Some (VStr _) => true
      | _ => false
      end
  | _ => false
  end.

(** The stat of a manual entry: the property, 0 when it is absent or null. *)
Definition manual_stat (fs : list (string * value)) (k : string) : value :=
  match lookup k fs with
  | Some v => if nullish v then VNum 0 else v
  | None => VNum 0
  end.

(** Why the resource at [u] fails to load: the fetch is rejected, the
    status is not a success, or the body does not parse. *)
Definition load_failure (host : Host) (u : string) : option JsError :=
  match fetch host u with
  | inl e => Some e
  | inr res =>
      if negb (res_ok res)
      then Some (Error ("HTTP " ++ NumberToString host (res_status res))%string)
      else match res_json res with
           | inl e => Some e
           | inr _ => None
           end
  end.

(** [host] with another metric calculator. *)
Definition with_calc (host : Host) (cd ce : value -> Res value) : Host :=
  mkHost (fetch host) cd ce (formatDate host) (calcElapsedTime host)
         (formatNumber host) (NumberToString host) (toFixed1 host).

(** A non-negative number. *)
Definition nonneg (v : value) : Prop :=
  match v with
  | VNum q => 0 <= q
  | _ => False
  end.

(** A feature whose geometry the extractor turns into the sequence [c]. *)
Definition yields (feature : value) (c : list value) : Prop :=
  exists g, get feature "geometry" = inr g /\
            extractCoordsFromGeometry g = inr (VArr c).

Definition kind_of (v : value) : option string :=
  match get v "type" with
  | inr (VStr t) => Some t
  | _ => None
  end.

Definition supported_kind (t : string) : bool :=
  (t =? "FeatureCollection") || (t =? "Feature") ||
  (t =? "LineString") || (t =? "MultiLineString").

(** The sum of [l] as the script adds: from [acc], left to right, each
    addition rounded to a double; [None] when a sum is not finite. *)
Fixpoint sum64_from (acc : Q) (l : list Q) : option Q :=
  match l with
  | [] => Some acc
  | x :: rest =>
      match add64 acc x with
      | Some acc' => sum64_from acc' rest
      | None => None
      end
  end.

Definition sum64 (l : list Q) : option Q := sum64_from 0 l.

(** A double that is not below zero (NaN aside). *)
Definition not_negative (f : spec_float) : Prop :=
  match f with
  | S754_zero s | S754_infinity s | S754_finite s _ _ => s = false
  | S754_nan => True
  end.

Definition number_or_zero (v : value) : Q :=
  match v with
  | VNum q => q
  | _ => 0
  end.

Definition distance_of (r : DayResult) : Q := number_or_zero (distance r).
Definition elevation_of (r : DayResult) : Q := number_or_zero (elevation r).

Definition numeric_stats (r : DayResult) : Prop :=
  (exists d, distance r = VNum d) /\ (exists e, elevation r = VNum e).

(** The value of the own property [k] of an object, [undefined] when it
    has none. *)
Definition field (fs : list (string * value)) (k : string) : value :=
  match lookup k fs with
  | Some x => x
  | None => VUndef
  end.

(** The file a day entry names, and the resource it resolves to. *)
Definition file_of (entry : value) : string :=
  match entry with
  | VStr s => s
  | VObj fs =>
      match lookup "file" fs with
      | Some (VStr s) => s
      | _ => ""
      end
  | _ => ""
  end.

Definition resource_url (tripId dataRoot : string) (entry : value) : string :=
  (dataRoot ++ "/" ++ tripId ++ "/" ++ file_of entry)%string.

(** ** Sample inputs *)

Definition ok_json (body : value) : Res Response :=
  inr (mkResponse true 200 (inr body)).

(** A host that serves [docs] and rejects any other request. *)
Definition sample_host (docs : list (string * Res Response)) : Host :=
  mkHost
    (fun u =>
       (fix find (l : list (string * Res Response)) : Res Response :=
          match l with
          | [] => inl (TypeError "Failed to fetch")
          | (u', r) :: rest => if u' =? u then r else find rest
          end) docs)
    (fun _ => inr (VNum 0))
    (fun _ => inr (VNum 0))
    (fun v => v)
    (fun _ _ _ _ => VStr "")
    (fun _ => "0")
    (fun _ => "0")
    (fun _ => "0.0").

(** A feature collection whose second feature is [null]. *)
Definition null_feature_doc : value :=
  VObj [ ("type", VStr "FeatureCollection");
         ("features",
          VArr [ VObj [ ("type", VStr "Feature");
                        ("properties",
                         VObj [ ("distance_miles", VNum 5);
                                ("elevation_gain_ft", VNum 100) ]);
                        ("geometry", VNull) ];
                 VNull ]) ].

Definition line_doc : value :=
  VObj [ ("type", VStr "Feature");
         ("properties", VObj [ ("distance_miles", VNum (71 # 5)) ]);
         ("geometry",
          VObj [ ("type", VStr "LineString");
                 ("coordinates",
                  VArr [ VArr [VNum 0; VNum 0; VNum 10];
                         VArr [VNum 0; VNum 1; VNum 30] ]) ]) ].

Definition day1_url : string := "../data/trip/day-1.geojson".
Definition day2_url : string := "../data/trip/day-2.geojson".
Definition meta_url : string := "../data/trip/meta.json".

Definition manual_entry (dist elev : value) : value :=
  VObj [ ("file", VStr "day-1.geojson");
         ("distance_miles", dist);
         ("elevation_gain_ft", elev) ].

Definition line_host : Host := sample_host [(day1_url, ok_json line_doc)].

Definition null_feature_host : Host :=
  sample_host [(day1_url, ok_json null_feature_doc)].

Definition line_coords : list value :=
  [ VArr [VNum 0; VNum 0; VNum 10]; VArr [VNum 0; VNum 1; VNum 30] ].

Definition point_geometry : value :=
  VObj [ ("type", VStr "Point"); ("coordinates", VArr [VNum 1; VNum 2]) ].

Definition point_fields : list (string * value) :=
  [ ("type", VStr "Feature");
    ("properties", VObj [ ("day", VNum 7) ]);
    ("geometry", point_geometry) ].

Definition point_feature : value := VObj point_fields.

Definition collection_fields : list (string * value) :=
  [ ("type", VStr "FeatureCollection");
    ("features", VArr [point_feature; line_doc; point_feature]) ].

Definition multi_line_fields : list (string * value) :=
  [ ("type", VStr "MultiLineString");
    ("coordinates", VArr (map VArr [line_coords; [VArr [VNum 2; VNum 2]]])) ].

(** What the loader makes of the legacy entry [day-1.geojson] when the
    resource is [line_doc] and the host is a [sample_host]. *)
Definition line_day_result : DayResult :=
  mkDayResult 0 (VStr "day-1.geojson") day1_url true line_doc (VNum 1)
              (VNum (71 # 5)) (VNum 0) VNull.

Definition failed_day_result : DayResult :=
  mkDayResult 1 (VStr "day-2.geojson") day2_url false VNull (VNum 2)
              (VNum 0) (VNum 0) (VStr "Failed to fetch").

Definition meta_fields : list (string * value) :=
  [ ("title", VStr "Loop"); ("days", VStr "day-1.geojson") ].

Definition meta_host : Host :=
  sample_host [(meta_url, ok_json (VObj meta_fields))].

(** An entry whose [file] is an object with an own [toString]. *)
Definition unprintable_entry : value :=
  VObj [ ("file", VObj [ ("toString", VNum 1) ]) ].

(** ** HTML escaping (lines 419-426) *)

Definition dquote : ascii := ascii_of_nat 34.

(** [s.replace(/c/g, by_)] for a one-character pattern.  A string is
    its UTF-8 bytes; the characters replaced below are ASCII, which no
    byte of a longer sequence equals. *)
Fixpoint replace_char (c : ascii) (by_ : string) (s : string) : string :=
  match s with
  | EmptyString => EmptyString
  | String a rest =>
      if Ascii.eqb a c
      then (by_ ++ replace_char c by_ rest)%string
      else String a (replace_char c by_ rest)
  end.

Definition escapeHtml (host : Host) (str : value) : Res string :=
  match str with
  | VStr s =>
      inr (replace_char dquote "&quot;"
             (replace_char ">" "&gt;"
                (replace_char "<" "&lt;"
                   (replace_char "&" "&amp;" s))))
  | _ => ToString host (or_else str (VStr ""))
  end.

(** What one character becomes in escaped text. *)
Definition escape_char (a : ascii) : string :=
  if Ascii.eqb a "&" then "&amp;"
  else if Ascii.eqb a "<" then "&lt;"
  else if Ascii.eqb a ">" then "&gt;"
  else if Ascii.eqb a dquote then "&quot;"
  else String a EmptyString.

Fixpoint escape_string (s : string) : string :=
  match s with
  | EmptyString => EmptyString
  | String a rest => (escape_char a ++ escape_string rest)%string
  end.

(** One of the four characters [escapeHtml] replaces. *)
Definition is_markup (a : ascii) : bool :=
  Ascii.eqb a "&" || Ascii.eqb a "<" || Ascii.eqb a ">" || Ascii.eqb a dquote.

Fixpoint string_forall (p : ascii -> bool) (s : string) : bool :=
  match s with
  | EmptyString => true
  | String a rest => p a && string_forall p rest
  end.

(** ** Documents the extractor accepts *)

(** [geometry.coordinates] is falsy or an array. *)
Definition tidy_coordinates (g : value) : bool :=
  match get g "coordinates" with
  | inr cs => negb (truthy cs) || isArray cs
  | inl _ => true
  end.

(** A geometry: falsy, or a line string or multi line string with tidy
    coordinates, or of any other kind. *)
Definition tidy_geometry (g : value) : bool :=
  if truthy g then
    match get g "type" with
    | inr t =>
        if is_str t "LineString" || is_str t "MultiLineString"
        then tidy_coordinates g
        else true
    | inl _ => true
    end
  else true.

(** A feature: not [null], with a tidy geometry. *)
Definition tidy_feature (f : value) : bool :=
  negb (nullish f) &&
  match get f "geometry" with
  | inr g => tidy_geometry g
  | inl _ => false
  end.

(** A document: falsy; a feature collection whose [features] is falsy or
    an array of tidy features; a feature with a tidy geometry; or a tidy
    geometry. *)
Definition tidy_doc (v : value) : bool :=
  if truthy v then
    match get v "type" with
    | inr t =>
        if is_str t "FeatureCollection" then
          match get v "features" with
          | inr fs => negb (truthy fs) || (isArray fs && forallb tidy_feature (items fs))
          | inl _ => true
          end
        else if is_str t "Feature" then
          match get v "geometry" with
          | inr g => tidy_geometry g
          | inl _ => true
          end
        else tidy_geometry v
    | inl _ => true
    end
  else true.

(** ** The map (lines 208-315) *)

(** What [buildMap] takes from the page and from Leaflet: which elements
    the document has, the colour helpers of the site, and for the layer
    built from a geometry the bounds [layer.getBounds()] returns when it
    returns valid ones ([None] when it throws or they are not valid: the
    [try] of lines 292-295 skips both).  [extend] is
    [bounds.extend(other)]. *)
Record MapHost : Type := mkMapHost {
  Bounds : Type;
  has_element : string -> bool;
  dayColorNeutral : nat -> string;
  dayColorHover : nat -> string;
  layer_bounds : value -> option Bounds;
  extend : Bounds -> Bounds -> Bounds
}.

(** The calls [buildMap] makes on the map; they are taken to return. *)
Inductive MapEvent (B : Type) : Type :=
| MapCreate (id : string)
| MapTileLayer (template : string)
| MapAddLayer (doc : value) (colorNeutral colorHover : string)
| MapFitBounds (b : B)
| MapSetView (lat lon : Q) (zoom : Z)
| MapShowError (msg : string)
| MapPulseMarker (latlng : value) (type : string)
| MapRemoveLoading.

Arguments MapCreate {B} id.
Arguments MapTileLayer {B} template.
Arguments MapAddLayer {B} doc colorNeutral colorHover.
Arguments MapFitBounds {B} b.
Arguments MapSetView {B} lat lon zoom.
Arguments MapShowError {B} msg.
Arguments MapPulseMarker {B} latlng type.
Arguments MapRemoveLoading {B}.

(** [v[n]] *)
Definition get_at (v : value) (n : nat) : Res value :=
  match v with
  | VUndef | VNull =>
      inl (TypeError ("Cannot read properties of " ++ type_name v ++ " (reading '"
                      ++ NilEmpty.string_of_uint (Nat.to_uint n) ++ "')")%string)
  | VArr l => inr (nth n l VUndef)
  | VStr s =>
      inr (match String.get n s with
           | Some c => VStr (String c EmptyString)
           | None => VUndef
           end)
  | VObj fs =>
      inr (match lookup (NilEmpty.string_of_uint (Nat.to_uint n)) fs with
           | Some x => x
           | None => VUndef
           end)
  | VBool _ | VNum _ => inr VUndef
  end.

(** [[coords[n][1], coords[n][0]]]: latitude first, for Leaflet. *)
Definition latlng_at (coords : value) (n : nat) : Res value :=
  let* c := get_at coords n in
  let* lat := get_at c 1 in
  let* lon := get_at c 0 in
  inr (VArr [lat; lon]).

(** [coords.length - 1] where [coords.length] is truthy; [None] when the
    length is not the one of an array or a string (an own property that
    the script would coerce). *)
Definition last_index (coords : value) : option nat :=
  match coords with
  | VArr l => Some (List.length l - 1)%nat
  | VStr s => Some (String.length s - 1)%nat
  | _ => None
  end.

(** Lines 282-290: the start and end coordinates after one more day. *)
Definition day_ends (startCoord endCoord doc : value) : Stop + (value * value) :=
  match extractCoords doc with
  | inl e => inl (Thrown e)
  | inr coords =>
      match get coords "length" with
      | inl e => inl (Thrown e)
      | inr len =>
          if truthy len then
            match (match startCoord with
                   | VNull => latlng_at coords 0
                   | _ => inr startCoord
                   end) with
            | inl e => inl (Thrown e)
            | inr startCoord' =>
                match last_index coords with
                | None => inl OutsideModel
                | Some n =>
                    match latlng_at coords n with
                    | inl e => inl (Thrown e)
                    | inr endCoord' => inr (startCoord', endCoord')
                    end
                end
            end
          else inr (startCoord, endCoord)
      end
  end.

(** The [for ... of validDays] loop, lines 247-296, on the variables
    [startCoord], [endCoord] and [allBounds]. *)
Fixpoint map_days (mh : MapHost) (validDays : list DayResult)
         (st : value * value * list (Bounds mh))
  : list (MapEvent (Bounds mh)) * (Stop + (value * value * list (Bounds mh))) :=
  match validDays with
  | [] => ([], inr st)
  | day :: rest =>
      let '(startCoord, endCoord, allBounds) := st in
      let layer :=
        MapAddLayer (geojson day) (dayColorNeutral mh (index day))
                    (dayColorHover mh (index day)) in
      match day_ends startCoord endCoord (geojson day) with
      | inl s => ([layer], inl s)
      | inr (startCoord', endCoord') =>
          let allBounds' :=
            match layer_bounds mh (geojson day) with
            | Some b => allBounds ++ [b]
            | None => allBounds
            end in
          let (evs, out) := map_days mh rest (startCoord', endCoord', allBounds') in
          (layer :: evs, out)
      end
  end.

Definition buildMap (mh : MapHost) (dayResults : list DayResult)
  : list (MapEvent (Bounds mh)) * (Stop + unit) :=
  if negb (has_element mh "trip-map") then ([], inr tt)
  else
    let setup : list (MapEvent (Bounds mh)) :=
      [ MapCreate "trip-map";
        MapTileLayer "https://server.arcgisonline.com/ArcGIS/rest/services/World_Imagery/MapServer/tile/{z}/{y}/{x}";
        MapTileLayer "https://server.arcgisonline.com/ArcGIS/rest/services/Reference/World_Boundaries_and_Places/MapServer/tile/{z}/{y}/{x}" ] in
    let validDays := filter (fun d => ok d && truthy (geojson d)) dayResults in
    match map_days mh validDays (VNull, VNull, []) with
    | (evs, inl s) => (setup ++ evs, inl s)
    | (evs, inr (startCoord, endCoord, allBounds)) =>
        let fit : list (MapEvent (Bounds mh)) :=
          match allBounds with
          | b :: bs => [MapFitBounds (fold_left (extend mh) bs b)]
          | [] => [ MapSetView (79 # 2) (- (1967 # 20)) 4;
                    MapShowError "Could not determine route bounds." ]
          end in
        let markers : list (MapEvent (Bounds mh)) :=
          (if truthy startCoord then [MapPulseMarker startCoord "start"] else [])
          ++ (if truthy endCoord then [MapPulseMarker endCoord "end"] else []) in
        let loading : list (MapEvent (Bounds mh)) :=
          if has_element mh "map-loading" then [MapRemoveLoading] else [] in
        (setup ++ evs ++ fit ++ markers ++ loading, inr tt)
    end.

(** The coordinates of the days the map draws, in order. *)
Definition valid_for_map (d : DayResult) : bool := ok d && truthy (geojson d).

Definition day_coords (d : DayResult) : list value :=
  match extractCoords (geojson d) with
  | inr (VArr cs) => cs
  | _ => []
  end.

Definition route (dayResults : list DayResult) : list value :=
  flat_map day_coords (filter valid_for_map dayResults).

(** [[lat, lon]] of a coordinate [[lon, lat, ...]]. *)
Definition latlng (c : value) : value :=
  match c with
  | VArr l => VArr [nth 1 l VUndef; nth 0 l VUndef]
  | _ => VUndef
  end.

Definition pulse_markers {B : Type} (evs : list (MapEvent B)) : list (value * string) :=
  flat_map (fun ev => match ev with
                      | MapPulseMarker p t => [(p, t)]
                      | _ => []
                      end) evs.

Definition is_array_value (v : value) : Prop := exists l, v = VArr l.

(** The start and end coordinates once the coordinates [acc] have been
    seen. *)
Definition route_ends (acc : list value) : value * value :=
  match acc with
  | [] => (VNull, VNull)
  | c :: _ => (latlng c, latlng (last acc VUndef))
  end.

(** The valid bounds of the layers of the days the map draws. *)
Definition valid_bounds (mh : MapHost) (days : list DayResult) : list (Bounds mh) :=
  flat_map (fun d => match layer_bounds mh (geojson d) with
                     | Some b => [b]
                     | None => []
                     end) days.

Definition day_layer (mh : MapHost) (d : DayResult) : MapEvent (Bounds mh) :=
  MapAddLayer (geojson d) (dayColorNeutral mh (index d)) (dayColorHover mh (index d)).

(** The calls that place the view: [fitBounds], [setView] and the map
    error. *)
Definition view_events {B : Type} (evs : list (MapEvent B)) : list (MapEvent B) :=
  flat_map (fun ev => match ev with
                      | MapFitBounds _ | MapSetView _ _ _ | MapShowError _ => [ev]
                      | _ => []
                      end) evs.

(** Every day the map draws has coordinates that are an array of
    arrays. *)
Definition drawable (days : list DayResult) : Prop :=
  forall d, In d days ->
            exists cs, extractCoords (geojson d) = inr (VArr cs) /\
                       Forall is_array_value cs.

(** ** More sample inputs *)

Definition trip_days : list value :=
  [ VStr "day-1.geojson"; manual_entry (VNum (117 # 10)) (VNum 2100) ].

Definition trip_fields : list (string * value) :=
  [ ("title", VStr "Loop"); ("days", VArr trip_days) ].

(** Serves the metadata of a two-day trip and the geometry of day 1,
    which both entries name. *)
Definition trip_host : Host :=
  sample_host [ (meta_url, ok_json (VObj trip_fields));
                (day1_url, ok_json line_doc) ].

(** [line_host] with a metric calculator whose elevation gain throws. *)
Definition no_elevation_host : Host :=
  with_calc line_host (fun _ => inr (VNum 3)) (fun _ => inl (Error "no elevation")).

Definition line2_doc : value :=
  VObj [ ("type", VStr "LineString");
         ("coordinates", VArr [ VArr [VNum 5; VNum 6]; VArr [VNum 7; VNum 8] ]) ].

(** Three results: a loaded day, a failed day, and a second loaded day. *)
Definition map_days_sample : list DayResult :=
  [ line_day_result;
    failed_day_result;
    mkDayResult 2 (VStr "day-3.geojson") "../data/trip/day-3.geojson" true
                line2_doc (VNum 3) (VNum 1) (VNum 0) VNull ].

(** A page with every element, and a Leaflet whose bounds are lists of
    documents; only [line2_doc] gives valid bounds. *)
Definition sample_map_host : MapHost :=
  mkMapHost (list value)
            (fun _ => true)
            (fun _ => "neutral")
            (fun _ => "hover")
            (fun doc => match doc with
                        | VObj (("type", VStr "LineString") :: _) => Some [doc]
                        | _ => None
                        end)
            (fun a b => a ++ b).

(** [line_host] with a [formatNumber] that prints the integer part in
    decimal. *)
Definition printing_host : Host :=
  mkHost (fetch line_host) (calcDistance line_host) (calcElevationGain line_host)
         (formatDate line_host) (calcElapsedTime line_host)
         (fun v => match v with
                   | VNum q => NilZero.string_of_int (Z.to_int (Qnum q))
                   | _ => ""
                   end)
         (NumberToString line_host) (toFixed1 line_host).

(** Two loaded days of 0.1 mile each, with 0.5 and 0 feet of gain, and a
    failed day. *)
Definition tenth_days : list DayResult :=
  [ mkDayResult 0 (VStr "day-1.geojson") day1_url true line_doc (VNum 1)
                (VNum (1 # 10)) (VNum (1 # 2)) VNull;
    failed_day_result;
    mkDayResult 2 (VStr "day-1.geojson") day1_url true line_doc (VNum 3)
                (VNum (1 # 10)) (VNum 0) VNull ].

Definition collection_host : Host :=
  sample_host [(day1_url, ok_json (VObj collection_fields))].

(** What the loader makes of [day-1.geojson] on [null_feature_host]. *)
Definition null_feature_day_result : DayResult :=
  mkDayResult 0 (VStr "day-1.geojson") day1_url true null_feature_doc (VNum 1)
              (VNum 0) (VNum 0)
              (VStr "Cannot read properties of null (reading 'geometry')").

(** * Properties *)

Ltac case_match :=
  match goal with
  | |- context [match ?x with _ => _ end] => destruct x eqn:?
  | H : context [match ?x with _ => _ end] |- _ => destruct x eqn:?
  end.

Ltac unfold_try :=
  unfold try_block, try_bind, lift, assign in *.

(** ** The day loader *)

Section Loader.

Variable host : Host.
Variables tripId dataRoot : string.

(** The [try] block never touches [index], [filename] and [url]. *)
Lemma try_block_frame i u nf md me r0 :
  let r := fst (try_block host i u nf md me r0) in
  index r = index r0 /\ filename r = filename r0 /\ url r = url r0.
Proof.
  unfold_try. cbn zeta.
  repeat (case_match; cbn [fst snd]; try (repeat split; reflexivity)).
Qed.

(** A load failure leaves the block at once, the result untouched. *)
Lemma try_block_failure i u nf md me r0 err :
  load_failure host u = Some err ->
  try_block host i u nf md me r0 = (r0, inl err).
Proof.
  unfold load_failure. unfold_try. intros H.
  destruct (fetch host u) as [e | res].
  - now inversion H.
  - destruct (negb (res_ok res)).
    + now inversion H.
    + destruct (res_json res); [now inversion H | discriminate].
Qed.

(** The loader returns as soon as the file name prints. *)
Lemma loader_of_string s i :
  loadDayGeoJSON host tripId dataRoot (VStr s) i =
  let u := (dataRoot ++ "/" ++ tripId ++ "/" ++ s)%string in
  let r0 := mkDayResult i (VStr s) u false VNull (VNum (num_of_nat i + 1))
                        (VNum 0) (VNum 0) VNull in
  match try_block host i u false VNull VNull r0 with
  | (r, inr _) => inr r
  | (r, inl err) => inr (set_error (VStr (message err)) r)
  end.
Proof. reflexivity. Qed.

Lemma loader_of_manual fs s i :
  lookup "file" fs = Some (VStr s) ->
  loadDayGeoJSON host tripId dataRoot (VObj fs) i =
  let u := (dataRoot ++ "/" ++ tripId ++ "/" ++ s)%string in
  let md := match lookup "distance_miles" fs with Some x => x | None => VUndef end in
  let me := match lookup "elevation_gain_ft" fs with Some x => x | None => VUndef end in
  let r0 := mkDayResult i (VStr s) u false VNull (VNum (num_of_nat i + 1))
                        (VNum 0) (VNum 0) VNull in
  match try_block host i u true md me r0 with
  | (r, inr _) => inr r
  | (r, inl err) => inr (set_error (VStr (message err)) r)
  end.
Proof.
  intros H. unfold loadDayGeoJSON. cbn [typeof_object andb negb get bind].
  rewrite H. reflexivity.
Qed.

Lemma loader_returns entry i :
  is_day_entry entry = true ->
  exists r, loadDayGeoJSON host tripId dataRoot entry i = inr r.
Proof.
  intros H. destruct entry as [ | | b | q | s | l | fs]; try discriminate.
  - rewrite loader_of_string. cbn zeta.
    destruct (try_block _ _ _ _ _ _ _) as [r [e | []]]; eauto.
  - cbn in H. destruct (lookup "file" fs) as [[ | | | | s | | ] | ] eqn:E;
      try discriminate.
    rewrite (loader_of_manual _ _ _ E). cbn zeta.
    destruct (try_block _ _ _ _ _ _ _) as [r [e | []]]; eauto.
Qed.

Lemma loader_index entry i r :
  loadDayGeoJSON host tripId dataRoot entry i = inr r -> index r = i.
Proof.
  unfold loadDayGeoJSON, bind. intros H.
  repeat (case_match; try discriminate);
    match goal with
    | E : try_block ?h ?i ?u ?nf ?md ?me ?r0 = _ |- _ =>
        pose proof (try_block_frame i u nf md me r0) as F; rewrite E in F
    end; cbn in F; inversion H; subst; cbn; tauto.
Qed.

End Loader.

(** ** [Promise.all] and the fan-out *)

Section Promises.

Context {A : Type}.
Local Open Scope nat_scope.

Lemma set_slot_length i (v : A) slots :
  List.length (set_slot i v slots) = List.length slots.
Proof.
  revert i; induction slots as [ | s rest IH]; intros [ | j]; cbn; auto.
Qed.

Lemma set_slot_same i (v : A) slots :
  i < List.length slots -> nth_error (set_slot i v slots) i = Some (Some v).
Proof.
  revert i; induction slots as [ | s rest IH]; intros [ | j] H; cbn in *;
    try lia; auto. apply IH; lia.
Qed.

Lemma set_slot_other i j (v : A) slots :
  i <> j -> nth_error (set_slot i v slots) j = nth_error slots j.
Proof.
  revert i j; induction slots as [ | s rest IH]; intros [ | i] [ | j] H; cbn;
    auto; try congruence.
Qed.

Lemma all_filled_map_Some (vs : list A) : all_filled (map Some vs) = Some vs.
Proof.
  induction vs as [ | v vs IH]; cbn; [reflexivity | now rewrite IH].
Qed.

(** Fulfilled promises, settling in any order without repetition of a
    position outside the list, fill the slots they name. *)
Lemma settle_fulfilled (vs : list A) sched :
  forall slots,
    List.length slots = List.length vs ->
    (forall i, In i sched -> i < List.length vs) ->
    exists slots',
      settle (map inr vs) sched slots = inr slots' /\
      List.length slots' = List.length vs /\
      forall i, nth_error slots' i =
                if in_dec Nat.eq_dec i sched
                then option_map Some (nth_error vs i)
                else nth_error slots i.
Proof.
  induction sched as [ | k rest IH]; intros slots Hlen Hin.
  - exists slots. cbn. auto.
  - cbn [settle]. rewrite nth_error_map.
    assert (Hk : k < List.length vs) by (apply Hin; now left).
    destruct (nth_error vs k) as [v | ] eqn:Ek;
      [ | apply nth_error_None in Ek; lia].
    cbn [option_map].
    destruct (IH (set_slot k v slots)) as (slots' & Hs & Hl & Hn).
    + now rewrite set_slot_length.
    + intros i Hi; apply Hin; now right.
    + exists slots'. repeat split; auto.
      intros i. rewrite Hn.
      destruct (in_dec Nat.eq_dec i rest) as [Hi | Hi];
        destruct (in_dec Nat.eq_dec i (k :: rest)) as [Hi' | Hi'];
        auto.
      * exfalso; apply Hi'; now right.
      * destruct Hi' as [-> | ]; [ | contradiction].
        rewrite set_slot_same by lia. now rewrite Ek.
      * apply set_slot_other. intros ->. apply Hi'. now left.
Qed.

(** When every promise is fulfilled, [Promise.all] is fulfilled with the
    values in the order of the promises, whatever the order of settling. *)
Lemma Promise_all_fulfilled (vs : list A) sched :
  Permutation sched (seq 0 (List.length vs)) ->
  Promise_all (map inr vs) sched = Some (inr vs).
Proof.
  intros Hp. unfold Promise_all. rewrite length_map.
  destruct (settle_fulfilled vs sched (repeat None (List.length vs)))
    as (slots' & Hs & Hl & Hn).
  - apply repeat_length.
  - intros i Hi. apply (Permutation_in _ Hp), in_seq in Hi. lia.
  - rewrite Hs.
    assert (slots' = map Some vs) as ->.
    { apply nth_error_ext. intros i. rewrite Hn, nth_error_map.
      destruct (in_dec Nat.eq_dec i sched) as [Hi | Hi]; auto.
      destruct (Nat.lt_ge_cases i (List.length vs)) as [Hlt | Hge].
      - exfalso. apply Hi. apply Permutation_sym in Hp.
        apply (Permutation_in _ Hp), in_seq. lia.
      - rewrite (proj2 (nth_error_None vs i)) by lia.
        cbn. apply nth_error_None. rewrite repeat_length. lia. }
    now rewrite all_filled_map_Some.
Qed.

Lemma all_inr (ps : list (Res A)) :
  (forall p, In p ps -> exists a, p = inr a) ->
  exists vs, ps = map inr vs.
Proof.
  induction ps as [ | p ps IH]; intros H.
  - now exists [].
  - destruct (H p (or_introl eq_refl)) as [a ->].
    destruct IH as [vs ->]; [intros q Hq; apply H; now right | ].
    now exists (a :: vs).
Qed.

End Promises.

Lemma nth_error_map_index {A B : Type} (f : A -> nat -> B) (l : list A) i :
  nth_error (map_index f l) i = option_map (fun x => f x i) (nth_error l i).
Proof.
  unfold map_index.
  assert (G : forall k j,
             nth_error (map (fun p => f (snd p) (fst p))
                            (combine (seq k (List.length l)) l)) j =
             option_map (fun x => f x (k + j)%nat) (nth_error l j)).
  { induction l as [ | x l IH]; intros k [ | j]; cbn; auto.
    - now rewrite Nat.add_0_r.
    - rewrite IH. now rewrite Nat.add_succ_r. }
  apply (G 0%nat).
Qed.

Lemma map_index_length {A B : Type} (f : A -> nat -> B) (l : list A) :
  List.length (map_index f l) = List.length l.
Proof.
  unfold map_index. rewrite length_map, length_combine, length_seq. lia.
Qed.

(** All day entries well formed: every loader returns, and the fan-out
    hands back the loaders' results in the order of the entries. *)
Lemma loadAllDays_results host tripId dataRoot dayFiles sched :
  Forall (fun e => is_day_entry e = true) dayFiles ->
  Permutation sched (seq 0%nat (List.length dayFiles)) ->
  exists rs,
    loadAllDays host tripId dataRoot dayFiles sched = Some (inr rs) /\
    List.length rs = List.length dayFiles /\
    forall i entry,
      nth_error dayFiles i = Some entry ->
      exists r, nth_error rs i = Some r /\
                loadDayGeoJSON host tripId dataRoot entry i = inr r.
Proof.
  intros Hall Hp. unfold loadAllDays.
  destruct (all_inr (map_index (loadDayGeoJSON host tripId dataRoot) dayFiles))
    as [rs Hrs].
  { intros p Hp'. apply In_nth_error in Hp' as [i Hi].
    rewrite nth_error_map_index in Hi.
    destruct (nth_error dayFiles i) as [e | ] eqn:Ee; [ | discriminate].
    cbn in Hi. inversion Hi; subst.
    apply loader_returns. rewrite Forall_forall in Hall.
    apply Hall. eapply nth_error_In; eauto. }
  assert (Hlen : List.length rs = List.length dayFiles).
  { rewrite <- (map_index_length (loadDayGeoJSON host tripId dataRoot) dayFiles).
    rewrite Hrs. now rewrite length_map. }
  exists rs. rewrite Hrs. split; [ | split; [exact Hlen | ]].
  - apply Promise_all_fulfilled. now rewrite Hlen.
  - intros i entry Hi.
    pose proof (nth_error_map_index (loadDayGeoJSON host tripId dataRoot) dayFiles i) as E.
    rewrite Hrs, nth_error_map, Hi in E. cbn in E.
    destruct (nth_error rs i) as [r | ]; [ | discriminate].
    exists r. cbn in E. split; congruence.
Qed.

(** ** The day loader on day entries *)

Section LoaderOnEntries.

Variable host : Host.
Variables tripId dataRoot : string.

Lemma get_truthy v k : truthy v = true -> exists x, get v k = inr x.
Proof. destruct v; cbn; try discriminate; eauto. Qed.

Lemma getFirstFeatureProps_returns g : exists p, getFirstFeatureProps g = inr p.
Proof.
  unfold getFirstFeatureProps.
  destruct (truthy g) eqn:Tg; cbn [negb]; [ | eauto].
  destruct (get_truthy g "type" Tg) as [t ->]. cbn [bind].
  destruct (is_str t "FeatureCollection").
  - destruct (get_truthy g "features" Tg) as [fs ->]. cbn [bind].
    destruct (truthy fs) eqn:Tfs; cbn [negb]; [ | eauto].
    assert (exists f0, get0 fs = inr f0) as [f0 ->]
      by (destruct fs; cbn in *; try discriminate; eauto).
    cbn [bind]. destruct (truthy f0) eqn:Tf0; cbn [negb]; [ | eauto].
    destruct (get_truthy f0 "properties" Tf0) as [p ->]. cbn [bind]. eauto.
  - destruct (is_str t "Feature"); [ | eauto].
    destruct (get_truthy g "properties" Tg) as [p ->]. cbn [bind]. eauto.
Qed.

Lemma embedded_returns p k : exists o, embedded p k = inr o.
Proof.
  unfold embedded. destruct (truthy p) eqn:Tp; [ | eauto].
  destruct (get_truthy p k Tp) as [x ->]. cbn [bind]. eauto.
Qed.

(** The result of the loader on a well-formed entry, through its [try]
    block. *)
Lemma loader_of_entry entry i :
  is_day_entry entry = true ->
  exists nf md me,
    loadDayGeoJSON host tripId dataRoot entry i =
    let u := resource_url tripId dataRoot entry in
    let r0 := mkDayResult i (VStr (file_of entry)) u false VNull
                          (VNum (num_of_nat i + 1)) (VNum 0) (VNum 0) VNull in
    match try_block host i u nf md me r0 with
    | (r, inr _) => inr r
    | (r, inl err) => inr (set_error (VStr (message err)) r)
    end.
Proof.
  intros H. destruct entry as [ | | b | q | s | l | fs]; try discriminate.
  - exists false, VNull, VNull. apply loader_of_string.
  - cbn in H. unfold resource_url, file_of.
    destruct (lookup "file" fs) as [[ | | | | s | | ] | ] eqn:E; try discriminate.
    do 3 eexists. apply (loader_of_manual host tripId dataRoot fs s i E).
Qed.

(** X18. What holds of every result, whatever was fetched: geometry only
    with [ok], and a result that is not [ok] is the failure record. *)
Lemma loader_not_ok entry i r :
  loadDayGeoJSON host tripId dataRoot entry i = inr r ->
  (geojson r <> VNull -> ok r = true) /\
  (ok r = false ->
   geojson r = VNull /\ distance r = VNum 0 /\ elevation r = VNum 0 /\
   dayNumber r = VNum (num_of_nat i + 1) /\ exists m, error r = VStr m).
Proof.
  unfold loadDayGeoJSON, bind. unfold_try. intros H.
  repeat (case_match; try discriminate);
    repeat match goal with
           | E : (_, _) = (_, _) |- _ => inversion E; subst; clear E
           | E : inr _ = inr _ |- _ => inversion E; subst; clear E
           end;
    cbn; split; intros; try discriminate; try congruence;
    repeat split; eauto.
Qed.

(** C2. The day loader returns for every day entry; when the resource
    fails to load (rejected fetch, non-success status, body that does not
    parse) the result is the failure record with the error's message; and
    in the fan-out every day's result is the one its own loader returns,
    a failed day leaving the totals of the others as they are. *)
Theorem day_loader_isolates_failures :
  (forall entry i,
      is_day_entry entry = true ->
      exists r,
        loadDayGeoJSON host tripId dataRoot entry i = inr r /\
        forall err,
          load_failure host (resource_url tripId dataRoot entry) = Some err ->
          ok r = false /\ index r = i /\
          dayNumber r = VNum (num_of_nat i + 1) /\
          distance r = VNum 0 /\ elevation r = VNum 0 /\
          geojson r = VNull /\ error r = VStr (message err)) /\
  (forall dayFiles sched,
      Forall (fun e => is_day_entry e = true) dayFiles ->
      Permutation sched (seq 0%nat (List.length dayFiles)) ->
      exists rs,
        loadAllDays host tripId dataRoot dayFiles sched = Some (inr rs) /\
        (forall i entry,
            nth_error dayFiles i = Some entry ->
            exists r, nth_error rs i = Some r /\
                      loadDayGeoJSON host tripId dataRoot entry i = inr r) /\
        (forall before r after,
            rs = before ++ r :: after -> ok r = false ->
            trip_totals rs = trip_totals (before ++ after))).
Proof.
  split.
  - intros entry i He.
    destruct (loader_of_entry entry i He) as (nf & md & me & ->). cbn zeta.
    destruct (try_block _ _ _ _ _ _ _) as [r out] eqn:Et.
    exists (match out with
            | inl err => set_error (VStr (message err)) r
            | inr _ => r
            end).
    split; [destruct out; reflexivity | ].
    intros err Hf.
    rewrite (try_block_failure host _ _ _ _ _ _ err Hf) in Et.
    inversion Et; subst. cbn. repeat split; reflexivity.
  - intros dayFiles sched Hall Hp.
    destruct (loadAllDays_results host tripId dataRoot dayFiles sched Hall Hp)
      as (rs & Hrs & _ & Hnth).
    exists rs. repeat split; auto.
    intros before r after -> Hr. unfold trip_totals.
    rewrite !filter_app. cbn [filter]. now rewrite Hr.
Qed.

(** C3. A manual entry whose resource loads takes [distance] and
    [elevation] from the entry (0 when absent), and the result does not
    depend on the metric calculator. *)
Theorem manual_stats_take_precedence fs file i res g :
  lookup "file" fs = Some (VStr file) ->
  fetch host (dataRoot ++ "/" ++ tripId ++ "/" ++ file)%string = inr res ->
  res_ok res = true ->
  res_json res = inr g ->
  exists r,
    loadDayGeoJSON host tripId dataRoot (VObj fs) i = inr r /\
    ok r = true /\ geojson r = g /\ error r = VNull /\
    distance r = manual_stat fs "distance_miles" /\
    elevation r = manual_stat fs "elevation_gain_ft" /\
    forall cd ce,
      loadDayGeoJSON (with_calc host cd ce) tripId dataRoot (VObj fs) i = inr r.
Proof.
  intros Hfile Hfetch Hok Hjson.
  destruct (getFirstFeatureProps_returns g) as [p Hp].
  destruct (embedded_returns p "day") as [day Hday].
  eexists. split; [ | split; [ | split; [ | split; [ | split; [ | split]]]]].
  - rewrite (loader_of_manual host tripId dataRoot fs file i Hfile). cbn zeta.
    unfold_try. rewrite Hfetch, Hok. cbn [negb]. rewrite Hjson, Hp, Hday.
    reflexivity.
  - reflexivity.
  - reflexivity.
  - reflexivity.
  - cbn. unfold manual_stat.
    destruct (lookup "distance_miles" fs) as [[ ] | ]; reflexivity.
  - cbn. unfold manual_stat.
    destruct (lookup "elevation_gain_ft" fs) as [[ ] | ]; reflexivity.
  - intros cd ce.
    rewrite (loader_of_manual (with_calc host cd ce) tripId dataRoot fs file i Hfile).
    cbn zeta. unfold_try. cbn [fetch with_calc].
    rewrite Hfetch, Hok. cbn [negb]. rewrite Hjson, Hp, Hday.
    reflexivity.
Qed.

End LoaderOnEntries.

(** ** Where the statistics of a result come from *)

Section Stats.

Variable host : Host.
Variables tripId dataRoot : string.

Ltac stat_source :=
  solve [ left; reflexivity
        | right; left; split; reflexivity
        | right; right; split; [reflexivity | ];
          eexists; split; [eassumption | ];
          solve [ left; eassumption | right; eexists; eassumption ] ].

(** Each statistic of the object the [try] block leaves is the initial
    one, the manual one, an embedded property or a value computed by the
    metric calculator. *)
Lemma try_block_stats i u nf md me r0 r out :
  try_block host i u nf md me r0 = (r, out) ->
  (distance r = distance r0 \/
   (nf = true /\ distance r = if negb (nullish md) then md else VNum 0) \/
   (nf = false /\
    exists p, getFirstFeatureProps (geojson r) = inr p /\
              (embedded p "distance_miles" = inr (Some (distance r)) \/
               exists c, calcDistance host c = inr (distance r)))) /\
  (elevation r = elevation r0 \/
   (nf = true /\ elevation r = if negb (nullish me) then me else VNum 0) \/
   (nf = false /\
    exists p, getFirstFeatureProps (geojson r) = inr p /\
              (embedded p "elevation_gain_ft" = inr (Some (elevation r)) \/
               exists c, calcElevationGain host c = inr (elevation r)))).
Proof.
  unfold_try. intros H.
  repeat (case_match; try discriminate);
    repeat match goal with
           | E : (_, _) = (_, _) |- _ => inversion E; subst; clear E
           | E : inr _ = inr _ |- _ => inversion E; subst; clear E
           end;
    cbn [distance elevation geojson set_ok set_geojson set_dayNumber
         set_distance set_elevation set_error];
    split; stat_source.
Qed.

End Stats.

Section StatsOfResults.

Variable host : Host.
Variables tripId dataRoot : string.

(** C9, as the code has it.  The statistics of a result are non-negative
    numbers provided their sources are: the metric calculator, the manual
    statistics of the entry and the properties embedded in the first
    feature.  The loader copies the latter two as they are. *)
Theorem stats_nonneg_when_sources_are entry i r :
  (forall c v, calcDistance host c = inr v -> nonneg v) ->
  (forall c v, calcElevationGain host c = inr v -> nonneg v) ->
  (forall k v,
      k = "distance_miles" \/ k = "elevation_gain_ft" ->
      get entry k = inr v -> nullish v = false -> nonneg v) ->
  (forall p k v,
      k = "distance_miles" \/ k = "elevation_gain_ft" ->
      getFirstFeatureProps (geojson r) = inr p ->
      embedded p k = inr (Some v) -> nonneg v) ->
  loadDayGeoJSON host tripId dataRoot entry i = inr r ->
  nonneg (distance r) /\ nonneg (elevation r).
Proof.
  intros Hcd Hce Hman Hemb Hload.
  unfold loadDayGeoJSON in Hload.
  set (nf := typeof_object entry &&
             negb (match entry with VNull => true | _ => false end)) in *.
  destruct (if nf then get entry "file" else inr entry) as [ | filename];
    cbn [bind] in Hload; [discriminate | ].
  destruct (if nf then get entry "distance_miles" else inr VNull)
    as [ | md] eqn:Emd; cbn [bind] in Hload; [discriminate | ].
  destruct (if nf then get entry "elevation_gain_ft" else inr VNull)
    as [ | me] eqn:Eme; cbn [bind] in Hload; [discriminate | ].
  destruct (ToString host filename) as [ | file];
    cbn [bind] in Hload; [discriminate | ].
  cbn zeta in Hload.
  destruct (try_block _ _ _ _ _ _ _) as [r' out] eqn:Et.
  apply try_block_stats in Et. cbn [distance elevation] in Et.
  assert (Hr : distance r = distance r' /\ elevation r = elevation r' /\
               geojson r = geojson r')
    by (destruct out; inversion Hload; subst; cbn; auto).
  destruct Hr as (Hd & He & Hg). rewrite Hd, He. rewrite Hg in Hemb.
  assert (Z0 : nonneg (VNum 0)) by (cbn; apply Qle_refl).
  destruct Et as [Dist Elev]. split.
  - destruct Dist as [-> | [[Hnf ->] | (Hnf & p & Hp & [Hpd | [c Hc]])]]; auto.
    + rewrite Hnf in Emd. destruct (nullish md) eqn:N; cbn [negb]; auto.
      apply (Hman "distance_miles"); auto.
    + apply (Hemb p "distance_miles"); auto.
    + now apply (Hcd c).
  - destruct Elev as [-> | [[Hnf ->] | (Hnf & p & Hp & [Hpe | [c Hc]])]]; auto.
    + rewrite Hnf in Eme. destruct (nullish me) eqn:N; cbn [negb]; auto.
      apply (Hman "elevation_gain_ft"); auto.
    + apply (Hemb p "elevation_gain_ft"); auto.
    + now apply (Hce c).
Qed.

(** C7. For day entries and any order in which the fetches complete, the
    fan-out returns one result per entry, the result at position [i]
    being the one of entry [i], with [index] equal to [i]. *)
Theorem loadAllDays_keeps_order dayFiles sched :
  Forall (fun e => is_day_entry e = true) dayFiles ->
  Permutation sched (seq 0%nat (List.length dayFiles)) ->
  exists rs,
    loadAllDays host tripId dataRoot dayFiles sched = Some (inr rs) /\
    List.length rs = List.length dayFiles /\
    forall i entry,
      nth_error dayFiles i = Some entry ->
      exists r, nth_error rs i = Some r /\
                loadDayGeoJSON host tripId dataRoot entry i = inr r /\
                index r = i.
Proof.
  intros Hall Hp.
  destruct (loadAllDays_results host tripId dataRoot dayFiles sched Hall Hp)
    as (rs & Hrs & Hlen & Hnth).
  exists rs. repeat split; auto.
  intros i entry Hi. destruct (Hnth i entry Hi) as (r & Hr & Hl).
  exists r. repeat split; auto. eapply loader_index; eauto.
Qed.

End StatsOfResults.

(** C9, as the specification states it, fails: a manual entry with a
    negative [distance_miles] gives a result with a negative distance. *)
Lemma negative_manual_distance :
  exists r,
    loadDayGeoJSON line_host "trip" "../data"
                   (manual_entry (VNum (-1)) VNull) 0 = inr r /\
    ok r = true /\ distance r = VNum (-1) /\ ~ nonneg (distance r).
Proof.
  eexists. split; [vm_compute; reflexivity | ].
  repeat split. cbn. intros H. apply Qle_bool_iff in H. discriminate.
Qed.

(** C1 at a feature collection whose second feature is [null]: the
    result is [ok], carries the geometry, and carries the message of the
    error the extractor raised. *)
Theorem ok_result_carrying_error :
  exists r,
    loadDayGeoJSON null_feature_host
                   "trip" "../data" (VStr "day-1.geojson") 0 = inr r /\
    ok r = true /\ geojson r = null_feature_doc /\
    error r = VStr "Cannot read properties of null (reading 'geometry')".
Proof.
  eexists. split; [vm_compute; reflexivity | ]. repeat split.
Qed.

(** C4 at the same document: its first feature embeds
    [distance_miles = 5] and [elevation_gain_ft = 100], the extractor
    throws before they are read, and both statistics stay 0. *)
Theorem embedded_stats_lost_on_extraction_error :
  exists r p,
    loadDayGeoJSON null_feature_host
                   "trip" "../data" (VStr "day-1.geojson") 0 = inr r /\
    getFirstFeatureProps (geojson r) = inr p /\
    embedded p "distance_miles" = inr (Some (VNum 5)) /\
    embedded p "elevation_gain_ft" = inr (Some (VNum 100)) /\
    ok r = true /\ distance r = VNum 0 /\ elevation r = VNum 0.
Proof.
  do 2 eexists. split; [vm_compute; reflexivity | ].
  split; [vm_compute; reflexivity | ]. repeat split.
Qed.

(** Outside the day entries the loader can throw before its [try] block:
    a [file] that is an object with an own [toString] does not print. *)
Lemma loader_throws_on_unprintable_file :
  is_day_entry unprintable_entry = false /\
  loadDayGeoJSON line_host "trip" "../data" unprintable_entry 0 =
    inl (TypeError "Cannot convert object to primitive value").
Proof. split; reflexivity. Qed.

(** ** The geometry extractor *)

Section Extractor.

Lemma truthy_length_of_array (c : list value) :
  truthy (VNum (num_of_nat (List.length c))) = negb (match c with [] => true | _ => false end).
Proof. destruct c; reflexivity. Qed.

Lemma scan_features_first skipped f rest c :
  Forall (fun p => yields p []) skipped ->
  yields f c -> c <> [] ->
  scan_features (skipped ++ f :: rest) = inr (Some (VArr c)).
Proof.
  intros Hs (g & Hg & Hc) Hne.
  induction Hs as [ | p skipped (gp & Hgp & Hcp) _ IH]; cbn [app scan_features].
  - rewrite Hg. cbn [bind]. rewrite Hc. cbn [bind get]. cbn [String.eqb Ascii.eqb Bool.eqb].
    rewrite truthy_length_of_array. destruct c; [congruence | reflexivity].
  - rewrite Hgp. cbn [bind]. rewrite Hcp. exact IH.
Qed.

Lemma scan_features_none features :
  Forall (fun p => yields p []) features ->
  scan_features features = inr None.
Proof.
  induction 1 as [ | p features (gp & Hgp & Hcp) _ IH]; cbn [scan_features].
  - reflexivity.
  - rewrite Hgp. cbn [bind]. rewrite Hcp. exact IH.
Qed.

Lemma flat_of_lines (lines : list (list value)) :
  flat (VArr (map VArr lines)) = inr (VArr (List.concat lines)).
Proof.
  cbn [flat]. do 2 f_equal.
  induction lines as [ | l lines IH]; cbn; [reflexivity | now rewrite IH].
Qed.

(** C5. What the extractor returns, kind by kind: for a feature
    collection the sequence of the first feature that yields a non-empty
    one, the features before it being skipped (and the empty sequence when
    no feature yields one); for a feature what its geometry yields; for a
    line string its coordinates; for a multi line string its members
    concatenated in order; for any other kind the empty sequence. *)
Theorem extractCoords_by_kind :
  (forall fs skipped f rest c,
      lookup "type" fs = Some (VStr "FeatureCollection") ->
      lookup "features" fs = Some (VArr (skipped ++ f :: rest)) ->
      Forall (fun p => yields p []) skipped ->
      yields f c -> c <> [] ->
      extractCoords (VObj fs) = inr (VArr c)) /\
  (forall fs features,
      lookup "type" fs = Some (VStr "FeatureCollection") ->
      lookup "features" fs = Some (VArr features) ->
      Forall (fun p => yields p []) features ->
      extractCoords (VObj fs) = inr (VArr [])) /\
  (forall fs g,
      lookup "type" fs = Some (VStr "Feature") ->
      get (VObj fs) "geometry" = inr g ->
      extractCoords (VObj fs) = extractCoordsFromGeometry g) /\
  (forall fs cs,
      lookup "type" fs = Some (VStr "LineString") ->
      lookup "coordinates" fs = Some (VArr cs) ->
      extractCoordsFromGeometry (VObj fs) = inr (VArr cs) /\
      extractCoords (VObj fs) = inr (VArr cs)) /\
  (forall fs lines,
      lookup "type" fs = Some (VStr "MultiLineString") ->
      lookup "coordinates" fs = Some (VArr (map VArr lines)) ->
      extractCoordsFromGeometry (VObj fs) = inr (VArr (List.concat lines)) /\
      extractCoords (VObj fs) = inr (VArr (List.concat lines))) /\
  (forall v,
      (forall t, kind_of v = Some t -> supported_kind t = false) ->
      extractCoordsFromGeometry v = inr (VArr []) /\
      extractCoords v = inr (VArr [])).
Proof.
  split; [ | split; [ | split; [ | split; [ | split]]]].
  - intros fs skipped f rest c Ht Hf Hs Hy Hne.
    unfold extractCoords. cbn [truthy negb get bind]. rewrite Ht, Hf.
    cbn -[scan_features]. now rewrite (scan_features_first skipped f rest c).
  - intros fs features Ht Hf Hs.
    unfold extractCoords. cbn [truthy negb get bind]. rewrite Ht, Hf.
    cbn -[scan_features extractCoordsFromGeometry].
    rewrite (scan_features_none features Hs).
    unfold extractCoordsFromGeometry. cbn [truthy negb get bind]. now rewrite Ht.
  - intros fs g Ht Hg.
    unfold extractCoords. cbn [truthy negb bind].
    cbn [get] in *. rewrite Ht. cbn -[extractCoordsFromGeometry].
    inversion Hg; subst. reflexivity.
  - intros fs cs Ht Hc.
    unfold extractCoords, extractCoordsFromGeometry. cbn [truthy negb get bind].
    rewrite Ht, Hc. split; reflexivity.
  - intros fs lines Ht Hc.
    unfold extractCoords, extractCoordsFromGeometry. cbn [truthy negb get bind].
    rewrite Ht, Hc. cbn -[flat]. split; apply flat_of_lines.
  - intros v Hk.
    unfold extractCoords, extractCoordsFromGeometry.
    destruct (truthy v) eqn:Tv; cbn [negb]; [ | split; reflexivity].
    destruct (get_truthy v "type" Tv) as [t Ht]. rewrite Ht. cbn [bind].
    unfold kind_of in Hk. rewrite Ht in Hk.
    destruct t as [ | | | | s | | ]; try (split; reflexivity).
    specialize (Hk s eq_refl). unfold supported_kind in Hk.
    apply orb_false_elim in Hk as [Hk Hmulti].
    apply orb_false_elim in Hk as [Hk Hline].
    apply orb_false_elim in Hk as [Hcoll Hfeat].
    cbn [is_str]. rewrite Hcoll, Hfeat, Hline, Hmulti. split; reflexivity.
Qed.

(** C6 at three malformed documents: a [null] among the features makes
    the extractor throw, as do the coordinates of a multi line string that
    are not an array; coordinates of a line string that are not an array
    are returned as they are. *)
Theorem extractCoords_on_malformed :
  extractCoords null_feature_doc =
    inl (TypeError "Cannot read properties of null (reading 'geometry')") /\
  extractCoords (VObj [ ("type", VStr "MultiLineString");
                        ("coordinates", VStr "abc") ]) =
    inl (TypeError "(intermediate value).flat is not a function") /\
  extractCoords (VObj [ ("type", VStr "LineString");
                        ("coordinates", VNum 5) ]) = inr (VNum 5).
Proof. repeat split. Qed.

End Extractor.

(** ** The totals *)

Section Totals.

Variable host : Host.

Lemma sum_days_numeric days :
  Forall numeric_stats days ->
  forall td te,
    sum_days days (td, te) =
    match sum64_from td (map distance_of days),
          sum64_from te (map elevation_of days) with
    | Some totalDistance, Some totalElevation =>
        Some (totalDistance, totalElevation)
    | _, _ => None
    end.
Proof.
  induction 1 as [ | r days [[d Hd] [e He]] _ IH]; intros td te.
  - reflexivity.
  - cbn [sum_days map sum64_from]. unfold distance_of, elevation_of at 1.
    rewrite Hd, He. cbn [as_number number_or_zero fst snd].
    destruct (add64 td d) as [td' | ]; [ | reflexivity].
    destruct (add64 te e) as [te' | ].
    + apply IH.
    + now destruct (sum64_from td' _).
Qed.

Lemma gt0_iff q : gt0 q = true <-> 0 < q.
Proof.
  unfold gt0. rewrite negb_true_iff. split.
  - intros H. apply Qnot_le_lt. intros Hle.
    apply Qle_bool_iff in Hle. congruence.
  - intros H. destruct (Qle_bool q 0) eqn:E; [ | reflexivity].
    apply Qle_bool_iff in E. exfalso. now apply (Qlt_not_le 0 q).
Qed.

Lemma length_append (s t : string) :
  String.length (s ++ t)%string = (String.length s + String.length t)%nat.
Proof. induction s as [ | c s IH]; cbn; [reflexivity | now rewrite IH]. Qed.

Lemma vertPerMile_dash td te :
  vertPerMile host td te = Some "—" <-> ~ 0 < td.
Proof.
  unfold vertPerMile. rewrite <- gt0_iff.
  destruct (gt0 td); split; intros H; try congruence; try reflexivity.
  exfalso. destruct (div64 te td) as [q | ]; [ | discriminate].
  destruct (rounds_to_negative_zero q); [discriminate | ].
  inversion H as [E]. apply (f_equal String.length) in E.
  rewrite length_append in E. cbn in E. lia.
Qed.

Lemma binary_round_aux_not_negative mx ex lx :
  not_negative (binary_round_aux 53 1024 false mx ex lx).
Proof.
  unfold binary_round_aux.
  destruct (shr_fexp 53 1024 mx ex lx) as [mrs e'].
  destruct (shr_fexp 53 1024 _ e' loc_Exact) as [mrs' e''].
  destruct (shr_m mrs'); cbn; auto.
  destruct (Z.leb e'' _); reflexivity.
Qed.

Lemma to_double_not_negative q : 0 <= q -> not_negative (to_double q).
Proof.
  destruct q as [[ | n | n] d]; intros H.
  - reflexivity.
  - unfold to_double, SFdiv. cbn [Qnum Qden double_of_Z xorb].
    destruct (SFdiv_core_binary 53 1024 _ _ _ _) as [[mz ez] lz].
    apply binary_round_aux_not_negative.
  - exfalso. unfold Qle in H. cbn in H. lia.
Qed.

Lemma SFadd_not_negative x y :
  not_negative x -> not_negative y -> not_negative (SFadd 53 1024 x y).
Proof.
  destruct x as [sx | sx | | sx mx ex], y as [sy | sy | | sy my ey];
    cbn [not_negative]; intros Hx Hy; subst; try reflexivity.
  unfold SFadd, cond_Zopp, binary_normalize. cbn [Z.add].
  unfold binary_round.
  destruct (shl_align _ _ (fexp 53 1024 _)) as [mz ez].
  apply binary_round_aux_not_negative.
Qed.

Lemma of_double_not_negative f c :
  not_negative f -> of_double f = Some c -> 0 <= c.
Proof.
  destruct f as [s | s | | s m e]; cbn [not_negative of_double];
    intros Hs H; subst; try discriminate.
  - inversion H. apply Qle_refl.
  - injection H as <-. rewrite Qred_correct.
    destruct e as [ | k | k].
    + unfold Qle, inject_Z. cbn [Qnum Qden]. rewrite Z.pow_0_r. lia.
    + assert (0 < 2 ^ Zpos k)%Z by (apply Z.pow_pos_nonneg; lia).
      unfold Qle, inject_Z. cbn [Qnum Qden].
      destruct (2 ^ Z.pos k)%Z; lia.
    + unfold Qle. cbn [Qnum Qden]. lia.
Qed.

Lemma add64_not_negative a b c :
  0 <= a -> 0 <= b -> add64 a b = Some c -> 0 <= c.
Proof.
  intros Ha Hb. unfold add64. apply of_double_not_negative.
  apply SFadd_not_negative; now apply to_double_not_negative.
Qed.

Lemma sum64_from_not_negative l :
  Forall (fun q => 0 <= q) l ->
  forall acc total, 0 <= acc -> sum64_from acc l = Some total -> 0 <= total.
Proof.
  induction 1 as [ | q l Hq _ IH]; intros acc total Hacc; cbn [sum64_from].
  - intros E. inversion E. now subst.
  - destruct (add64 acc q) as [acc' | ] eqn:E; [ | discriminate].
    apply IH. now apply (add64_not_negative acc q).
Qed.

(** C8, as the code has it.  Over results with numeric statistics the
    totals are the sums, as the script adds, over the [ok] results; the
    vert per mile text shows the rounded quotient of the totals when the
    total distance is positive, and is the dash exactly when it is not,
    which is when it is 0 as long as no [ok] distance is negative. *)
Theorem trip_totals_sum_ok_days dayResults :
  Forall numeric_stats (filter ok dayResults) ->
  trip_totals dayResults =
    match sum64 (map distance_of (filter ok dayResults)),
          sum64 (map elevation_of (filter ok dayResults)) with
    | Some totalDistance, Some totalElevation =>
        Some (totalDistance, totalElevation)
    | _, _ => None
    end /\
  forall totalDistance totalElevation,
    (forall q,
        0 < totalDistance ->
        div64 totalElevation totalDistance = Some q ->
        rounds_to_negative_zero q = false ->
        vertPerMile host totalDistance totalElevation =
        Some (formatNumber host (VNum (inject_Z (Math_round q)))
              ++ " ft/mi")%string) /\
    (vertPerMile host totalDistance totalElevation = Some "—" <->
     ~ 0 < totalDistance) /\
    (trip_totals dayResults = Some (totalDistance, totalElevation) ->
     Forall (fun r => 0 <= distance_of r) (filter ok dayResults) ->
     (vertPerMile host totalDistance totalElevation = Some "—" <->
      totalDistance == 0)).
Proof.
  intros Hnum.
  assert (Hsum : trip_totals dayResults =
                 match sum64 (map distance_of (filter ok dayResults)),
                       sum64 (map elevation_of (filter ok dayResults)) with
                 | Some totalDistance, Some totalElevation =>
                     Some (totalDistance, totalElevation)
                 | _, _ => None
                 end)
    by (unfold trip_totals, sum64; now apply sum_days_numeric).
  split; [exact Hsum | ].
  intros td te. split; [ | split].
  - intros q Hpos Hq Hz. unfold vertPerMile.
    now rewrite (proj2 (gt0_iff td) Hpos), Hq, Hz.
  - apply vertPerMile_dash.
  - intros Htot Hnn. rewrite vertPerMile_dash.
    assert (0 <= td).
    { rewrite Hsum in Htot.
      destruct (sum64 (map distance_of (filter ok dayResults))) as [d | ] eqn:Ed;
        [ | discriminate].
      destruct (sum64 (map elevation_of (filter ok dayResults)));
        [ | discriminate].
      inversion Htot; subst.
      apply (sum64_from_not_negative _ (proj2 (Forall_map _ _ _) Hnn) 0 td);
        [apply Qle_refl | exact Ed]. }
    split.
    + intros Hd. apply Qle_antisym; [ | assumption]. now apply Qnot_lt_le.
    + intros Hz. rewrite Hz. apply Qlt_irrefl.
Qed.

End Totals.

(** C8, as the specification states it, fails: one day with the manual
    distance -1 gives the total distance -1, which is not 0, and no vert
    per mile. *)
Lemma no_vert_per_mile_at_negative_total :
  exists rs totalDistance totalElevation,
    loadAllDays line_host "trip" "../data"
                [manual_entry (VNum (-1)) (VNum 5)] [0%nat] = Some (inr rs) /\
    trip_totals rs = Some (totalDistance, totalElevation) /\
    vertPerMile line_host totalDistance totalElevation = Some "—" /\
    ~ totalDistance == 0.
Proof.
  do 3 eexists. split; [vm_compute; reflexivity | ].
  split; [vm_compute; reflexivity | ].
  split; [reflexivity | ]. intros H. discriminate H.
Qed.

(** ** The entry point *)

Section EntryPoint.

Variable host : Host.
Variables tripId dataRoot : string.

Lemma render_header_of_object fs t :
  ToString host (or_else (field fs "title") (VStr tripId)) = inr t ->
  render_header host tripId (VObj fs) =
  ([ EvSetText "trip-title" (or_else (field fs "title") (VStr tripId));
     EvSetText "trip-description" (or_else (field fs "description") (VStr ""));
     EvSetText "trip-start-date" (formatDate host (field fs "start_date"));
     EvSetText "trip-end-date" (formatDate host (field fs "end_date"));
     EvSetText "trip-elapsed"
       (calcElapsedTime host (field fs "start_date") (field fs "start_time")
                        (field fs "end_date") (field fs "end_time"));
     EvSetTitle (t ++ " — Hiking Journal")%string ],
   inr tt).
Proof.
  intros Ht. unfold render_header, field in *.
  cbn [get eff_res eff_bind emit app]. rewrite Ht. reflexivity.
Qed.

(** C10. When the metadata is an object whose [days] is missing or is
    not an array, and its title prints, the run renders the header,
    reports the map error and returns: no day is fetched, no total is
    written.  The same metadata with [days] set to the empty array gives
    the same header and the same end. *)
Theorem non_array_days_read_as_empty sched res fs t :
  let metaUrl := (dataRoot ++ "/" ++ tripId ++ "/meta.json")%string in
  fetch host metaUrl = inr res ->
  res_ok res = true ->
  res_json res = inr (VObj fs) ->
  isArray (field fs "days") = false ->
  ToString host (or_else (field fs "title") (VStr tripId)) = inr t ->
  initTripPage host tripId dataRoot sched =
    ([ EvFetch metaUrl;
       EvSetText "trip-title" (or_else (field fs "title") (VStr tripId));
       EvSetText "trip-description" (or_else (field fs "description") (VStr ""));
       EvSetText "trip-start-date" (formatDate host (field fs "start_date"));
       EvSetText "trip-end-date" (formatDate host (field fs "end_date"));
       EvSetText "trip-elapsed"
         (calcElapsedTime host (field fs "start_date") (field fs "start_time")
                          (field fs "end_date") (field fs "end_time"));
       EvSetTitle (t ++ " — Hiking Journal")%string;
       EvShowMapError "No day files listed in meta.json." ],
     inl EarlyReturn) /\
  render_header host tripId (VObj (("days", VArr []) :: fs)) =
    render_header host tripId (VObj fs) /\
  render_days host tripId dataRoot (VObj (("days", VArr []) :: fs)) sched =
    render_days host tripId dataRoot (VObj fs) sched.
Proof.
  intros metaUrl Hfetch Hok Hjson Hdays Ht.
  assert (Hrd : render_days host tripId dataRoot (VObj fs) sched =
                ([EvShowMapError "No day files listed in meta.json."],
                 inl EarlyReturn)).
  { unfold render_days. cbn [get eff_res eff_bind]. fold (field fs "days").
    rewrite Hdays. reflexivity. }
  split; [ | split].
  - unfold initTripPage. fold metaUrl. unfold load_meta.
    rewrite Hfetch. cbn [bind]. rewrite Hok. cbn [negb]. rewrite Hjson.
    rewrite (render_header_of_object fs t Ht), Hrd. reflexivity.
  - reflexivity.
  - rewrite Hrd. reflexivity.
Qed.

End EntryPoint.

(** ** The legacy path when nothing throws *)

Section Legacy.

Variable host : Host.
Variables tripId dataRoot : string.

Ltac never_throws :=
  match goal with
  | E : getFirstFeatureProps ?g = inl _ |- _ =>
      destruct (getFirstFeatureProps_returns g); congruence
  | E : embedded ?p ?k = inl _ |- _ =>
      destruct (embedded_returns p k); congruence
  end.

(** X20. A result is [ok] and carries an error only when, after the body
    parsed, the extractor threw on the geometry, or the metric calculator
    threw on the coordinates extracted from it; the error is the message
    of what was thrown. *)
Lemma ok_with_error_origin entry i r :
  loadDayGeoJSON host tripId dataRoot entry i = inr r ->
  ok r = true -> error r <> VNull ->
  (exists e, extractCoords (geojson r) = inl e /\ error r = VStr (message e)) \/
  (exists c e, extractCoords (geojson r) = inr c /\
               calcDistance host c = inl e /\ error r = VStr (message e)) \/
  (exists c e, extractCoords (geojson r) = inr c /\
               calcElevationGain host c = inl e /\ error r = VStr (message e)).
Proof.
  unfold loadDayGeoJSON, bind. unfold_try. intros H.
  repeat (case_match; try discriminate);
    repeat match goal with
           | E : (_, _) = (_, _) |- _ => inversion E; subst; clear E
           | E : inr _ = inr _ |- _ => inversion E; subst; clear E
           end;
    cbn; intros Hok Herr; try discriminate; try congruence;
    try never_throws; eauto 10.
Qed.

(** X19. A legacy entry whose resource loads, whose coordinates are
    extracted and whose statistics are obtained without an error: each
    statistic is the embedded property when there is one, the metric
    calculator's value on the extracted coordinates otherwise. *)
Lemma legacy_stats_when_nothing_throws s i res g p coords pd pe d e :
  fetch host (dataRoot ++ "/" ++ tripId ++ "/" ++ s)%string = inr res ->
  res_ok res = true ->
  res_json res = inr g ->
  getFirstFeatureProps g = inr p ->
  extractCoords g = inr coords ->
  embedded p "distance_miles" = inr pd ->
  embedded p "elevation_gain_ft" = inr pe ->
  match pd with Some x => inr x | None => calcDistance host coords end = inr d ->
  match pe with Some x => inr x | None => calcElevationGain host coords end = inr e ->
  exists r,
    loadDayGeoJSON host tripId dataRoot (VStr s) i = inr r /\
    ok r = true /\ geojson r = g /\ error r = VNull /\
    distance r = d /\ elevation r = e.
Proof.
  intros Hfetch Hok Hjson Hp Hc Hpd Hpe Hd He.
  destruct (embedded_returns p "day") as [day Hday].
  eexists. split.
  - rewrite loader_of_string. cbn zeta. unfold_try.
    rewrite Hfetch, Hok. cbn [negb]. rewrite Hjson, Hp, Hday, Hc.
    cbv beta iota. rewrite Hpd. cbv beta iota.
    destruct pd as [x | ]; [inversion Hd; subst x | rewrite Hd]; cbv beta iota;
      rewrite Hpe; cbv beta iota;
      (destruct pe as [y | ]; [inversion He; subst y | rewrite He]);
      reflexivity.
  - repeat split.
Qed.

End Legacy.

(** ** Instances at sample inputs *)

Lemma day_loader_isolates_failures_witness :
  (exists r,
      loadDayGeoJSON line_host "trip" "../data" (VStr "day-2.geojson") 1 = inr r /\
      ok r = false /\ geojson r = VNull /\ error r = VStr "Failed to fetch") /\
  (exists rs,
      loadAllDays line_host "trip" "../data"
                  [VStr "day-1.geojson"; VStr "day-2.geojson"] [1; 0]%nat
      = Some (inr rs) /\
      nth_error rs 0 = Some line_day_result).
Proof.
  destruct (day_loader_isolates_failures line_host "trip" "../data") as [One All].
  split.
  - destruct (One (VStr "day-2.geojson") 1%nat eq_refl) as (r & Hr & Hf).
    exists r. split; [exact Hr | ].
    destruct (Hf (TypeError "Failed to fetch") eq_refl)
      as (Hok & _ & _ & _ & _ & Hg & He).
    repeat split; assumption.
  - destruct (All [VStr "day-1.geojson"; VStr "day-2.geojson"] [1; 0]%nat)
      as (rs & Hrs & Hnth & _).
    + repeat constructor.
    + apply perm_swap.
    + exists rs. split; [exact Hrs | ].
      destruct (Hnth 0%nat (VStr "day-1.geojson") eq_refl) as (r & Hr & Hl).
      rewrite Hr. f_equal.
      assert (E : inr r = inr line_day_result :> Res DayResult)
        by (rewrite <- Hl; vm_compute; reflexivity).
      now inversion E.
Defined.

Lemma manual_stats_take_precedence_witness :
  exists r,
    loadDayGeoJSON line_host "trip" "../data"
                   (manual_entry (VNum (117 # 10)) VNull) 0 = inr r /\
    distance r = VNum (117 # 10) /\ elevation r = VNum 0.
Proof.
  destruct (manual_stats_take_precedence
              line_host "trip" "../data"
              [ ("file", VStr "day-1.geojson");
                ("distance_miles", VNum (117 # 10));
                ("elevation_gain_ft", VNull) ]
              "day-1.geojson" 0%nat (mkResponse true 200 (inr line_doc)) line_doc
              eq_refl eq_refl eq_refl eq_refl)
    as (r & Hr & _ & _ & _ & Hd & He & _).
  exists r. repeat split; assumption.
Defined.

Lemma stats_nonneg_when_sources_are_witness :
  nonneg (distance line_day_result) /\ nonneg (elevation line_day_result).
Proof.
  apply (stats_nonneg_when_sources_are
           line_host "trip" "../data"
           (VStr "day-1.geojson") 0%nat line_day_result).
  - intros c v H. inversion H. cbn. apply Qle_refl.
  - intros c v H. inversion H. cbn. apply Qle_refl.
  - intros k v [-> | ->] H; inversion H; discriminate.
  - intros p k v [-> | ->] Hp H;
      vm_compute in Hp; inversion Hp; subst; vm_compute in H; inversion H.
    cbn. apply Qle_bool_iff. reflexivity.
  - vm_compute. reflexivity.
Defined.

Lemma loadAllDays_keeps_order_witness :
  exists rs,
    loadAllDays line_host "trip" "../data"
                [ VStr "day-1.geojson"; VStr "day-2.geojson";
                  manual_entry (VNum 3) (VNum 4) ]
                [2; 0; 1]%nat = Some (inr rs) /\
    List.length rs = 3%nat /\
    map index rs = [0; 1; 2]%nat.
Proof.
  destruct (loadAllDays_keeps_order
              line_host "trip" "../data"
              [ VStr "day-1.geojson"; VStr "day-2.geojson";
                manual_entry (VNum 3) (VNum 4) ]
              [2; 0; 1]%nat)
    as (rs & Hrs & Hlen & Hnth).
  - repeat constructor.
  - apply (Permutation_cons_app [0%nat; 1%nat] [] 2%nat).
    apply Permutation_refl.
  - exists rs. split; [exact Hrs | ]. split; [exact Hlen | ].
    destruct (Hnth 0%nat _ eq_refl) as (r0 & H0 & _ & I0).
    destruct (Hnth 1%nat _ eq_refl) as (r1 & H1 & _ & I1).
    destruct (Hnth 2%nat _ eq_refl) as (r2 & H2 & _ & I2).
    destruct rs as [ | a [ | b [ | c [ | ]]]]; try discriminate.
    cbn in H0, H1, H2. inversion H0; inversion H1; inversion H2; subst.
    cbn. now rewrite I0, I1, I2.
Defined.

Lemma extractCoords_by_kind_witness :
  extractCoords (VObj collection_fields) = inr (VArr line_coords) /\
  extractCoords (VObj multi_line_fields) =
    inr (VArr (line_coords ++ [VArr [VNum 2; VNum 2]])) /\
  extractCoords point_feature = inr (VArr []).
Proof.
  destruct extractCoords_by_kind as (FC & _ & Feat & _ & Multi & Other).
  split; [ | split].
  - apply (FC collection_fields [point_feature] line_doc [point_feature] line_coords);
      try reflexivity.
    + repeat constructor. eexists. split; reflexivity.
    + eexists. split; reflexivity.
    + discriminate.
  - apply (Multi multi_line_fields [line_coords; [VArr [VNum 2; VNum 2]]]);
      reflexivity.
  - unfold point_feature.
    rewrite (Feat point_fields point_geometry eq_refl eq_refl).
    apply Other. intros t H. inversion H. reflexivity.
Defined.

Lemma trip_totals_sum_ok_days_witness :
  exists totalDistance totalElevation,
    trip_totals tenth_days = Some (totalDistance, totalElevation) /\
    totalDistance = 3602879701896397 # 18014398509481984 /\
    totalElevation = 1 # 2 /\
    vertPerMile printing_host totalDistance totalElevation = Some "3 ft/mi".
Proof.
  destruct (trip_totals_sum_ok_days printing_host tenth_days) as [Hsum Hvert].
  - repeat constructor; eexists; reflexivity.
  - exists (3602879701896397 # 18014398509481984), (1 # 2).
    split; [rewrite Hsum; vm_compute; reflexivity | ].
    split; [reflexivity | ]. split; [reflexivity | ].
    apply (proj1 (Hvert (3602879701896397 # 18014398509481984) (1 # 2)) (5 # 2)).
    + reflexivity.
    + vm_compute. reflexivity.
    + reflexivity.
Defined.

Lemma non_array_days_read_as_empty_witness :
  initTripPage meta_host "trip" "../data" [] =
    ([ EvFetch meta_url;
       EvSetText "trip-title" (VStr "Loop");
       EvSetText "trip-description" (VStr "");
       EvSetText "trip-start-date" VUndef;
       EvSetText "trip-end-date" VUndef;
       EvSetText "trip-elapsed" (VStr "");
       EvSetTitle "Loop — Hiking Journal";
       EvShowMapError "No day files listed in meta.json." ],
     inl EarlyReturn).
Proof.
  apply (non_array_days_read_as_empty meta_host "trip" "../data" []
           (mkResponse true 200 (inr (VObj meta_fields))) meta_fields "Loop");
    reflexivity.
Defined.

(** * Further properties of the script *)

(** ** HTML escaping *)

Section Escaping.

Variable host : Host.

Lemma string_app_assoc (a b c : string) :
  ((a ++ b) ++ c)%string = (a ++ (b ++ c))%string.
Proof. induction a as [ | x a IH]; cbn; [reflexivity | now rewrite IH]. Qed.

Lemma replace_char_app c by_ s t :
  replace_char c by_ (s ++ t)%string =
  (replace_char c by_ s ++ replace_char c by_ t)%string.
Proof.
  induction s as [ | a s IH]; cbn [append replace_char]; [reflexivity | ].
  destruct (Ascii.eqb a c); rewrite IH; [ | reflexivity].
  now rewrite string_app_assoc.
Qed.

Ltac split_char a :=
  destruct (Ascii.eqb a "&") eqn:Eamp;
    [apply Ascii.eqb_eq in Eamp; subst a | ];
    [ | destruct (Ascii.eqb a "<") eqn:Elt;
        [apply Ascii.eqb_eq in Elt; subst a | ] ];
    [ | | destruct (Ascii.eqb a ">") eqn:Egt;
          [apply Ascii.eqb_eq in Egt; subst a | ] ];
    [ | | | destruct (Ascii.eqb a dquote) eqn:Edq;
            [apply Ascii.eqb_eq in Edq; subst a | ] ].

(** The four passes on one character. *)
Lemma four_passes_on_char a :
  replace_char dquote "&quot;"
    (replace_char ">" "&gt;"
       (replace_char "<" "&lt;"
          (replace_char "&" "&amp;" (String a EmptyString)))) =
  escape_char a.
Proof.
  unfold escape_char. split_char a; try reflexivity.
  cbn [replace_char]. rewrite Eamp. cbn [replace_char]. rewrite Elt.
  cbn [replace_char]. rewrite Egt. cbn [replace_char]. now rewrite Edq.
Qed.

Lemma four_passes s :
  replace_char dquote "&quot;"
    (replace_char ">" "&gt;"
       (replace_char "<" "&lt;" (replace_char "&" "&amp;" s))) =
  escape_string s.
Proof.
  induction s as [ | a s IH]; [reflexivity | ].
  change (String a s) with (String a EmptyString ++ s)%string.
  rewrite !replace_char_app, four_passes_on_char, IH. reflexivity.
Qed.

Lemma escape_string_app s t :
  escape_string (s ++ t)%string = (escape_string s ++ escape_string t)%string.
Proof.
  induction s as [ | a s IH]; cbn [append escape_string]; [reflexivity | ].
  now rewrite IH, string_app_assoc.
Qed.

Lemma string_forall_app p s t :
  string_forall p (s ++ t)%string = string_forall p s && string_forall p t.
Proof.
  induction s as [ | a s IH]; cbn; [reflexivity | ].
  now rewrite IH, andb_assoc.
Qed.

Lemma escape_string_length s :
  (String.length s <= String.length (escape_string s))%nat.
Proof.
  induction s as [ | a s IH]; cbn [escape_string]; [apply le_n | ].
  rewrite length_append. unfold escape_char.
  split_char a; cbn [String.length]; lia.
Qed.

(** X1. The four chained replacements amount to one pass that maps each
    character on its own: the ampersands of the entities written by the
    first pass are not escaped again, and escaping distributes over
    concatenation. *)
Theorem escapeHtml_one_pass s t :
  escapeHtml host (VStr s) = inr (escape_string s) /\
  escapeHtml host (VStr (s ++ t)) =
    inr (escape_string s ++ escape_string t)%string.
Proof.
  unfold escapeHtml. rewrite !four_passes, escape_string_app. now split.
Qed.

(** X2. The escaped form of a string holds no [<], no [>] and no double
    quote. *)
Theorem escapeHtml_no_markup s :
  exists out,
    escapeHtml host (VStr s) = inr out /\
    string_forall
      (fun a => negb (Ascii.eqb a "<" || Ascii.eqb a ">" || Ascii.eqb a dquote))
      out = true.
Proof.
  exists (escape_string s). split.
  - unfold escapeHtml. now rewrite four_passes.
  - induction s as [ | a s IH]; [reflexivity | ].
    cbn [escape_string]. rewrite string_forall_app, IH, andb_true_r.
    unfold escape_char. split_char a; try reflexivity.
    cbn [string_forall]. now rewrite Elt, Egt, Edq.
Qed.

(** X3. Escaping loses nothing: two strings with the same escaped form
    are the same string. *)
Theorem escapeHtml_injective s t :
  escapeHtml host (VStr s) = escapeHtml host (VStr t) -> s = t.
Proof.
  unfold escapeHtml. rewrite !four_passes. intros H.
  assert (E : escape_string s = escape_string t) by congruence. clear H.
  revert t E. induction s as [ | a s IH]; intros [ | b t] E.
  - reflexivity.
  - exfalso. cbn [escape_string] in E. unfold escape_char in E.
    split_char b; discriminate E.
  - exfalso. cbn [escape_string] in E. unfold escape_char in E.
    split_char a; discriminate E.
  - cbn [escape_string] in E. unfold escape_char in E.
    split_char a;
      (destruct (Ascii.eqb b "&") eqn:Famp;
       [apply Ascii.eqb_eq in Famp; subst b | ];
       [ | destruct (Ascii.eqb b "<") eqn:Flt;
           [apply Ascii.eqb_eq in Flt; subst b | ] ];
       [ | | destruct (Ascii.eqb b ">") eqn:Fgt;
             [apply Ascii.eqb_eq in Fgt; subst b | ] ];
       [ | | | destruct (Ascii.eqb b dquote) eqn:Fdq;
               [apply Ascii.eqb_eq in Fdq; subst b | ] ]);
      cbn [append] in E; inversion E; subst;
      try discriminate; try (f_equal; now apply IH);
      try (rewrite Ascii.eqb_refl in *; discriminate).
Qed.

(** X4. A string is returned unchanged exactly when it holds none of the
    four characters. *)
Theorem escapeHtml_fixes_plain_text s :
  escapeHtml host (VStr s) = inr s <->
  string_forall (fun a => negb (is_markup a)) s = true.
Proof.
  unfold escapeHtml. rewrite four_passes. split.
  - intros H. assert (E : escape_string s = s) by congruence. clear H.
    induction s as [ | a s IH]; [reflexivity | ].
    cbn [escape_string string_forall] in *. unfold escape_char, is_markup in *.
    pose proof (escape_string_length s) as L.
    split_char a; try discriminate E.
    + exfalso. cbn [append] in E. inversion E as [E'].
      apply (f_equal String.length) in E'. cbn [String.length] in E'. lia.
    + cbn [append] in E. inversion E as [E'].
      cbn [negb orb andb]. rewrite E'. now apply IH.
  - intros H. f_equal.
    induction s as [ | a s IH]; [reflexivity | ].
    cbn [escape_string string_forall] in *.
    apply andb_true_iff in H as [Ha Hs]. rewrite (IH Hs).
    unfold escape_char, is_markup in *.
    split_char a; try discriminate Ha. reflexivity.
Qed.

End Escaping.

(** ** The extractor on tidy documents *)

Section TidyDocuments.

Lemma extractCoordsFromGeometry_tidy g :
  tidy_geometry g = true ->
  exists cs, extractCoordsFromGeometry g = inr (VArr cs).
Proof.
  unfold tidy_geometry, extractCoordsFromGeometry.
  destruct (truthy g) eqn:Tg; cbn [negb]; [ | eauto].
  destruct (get_truthy g "type" Tg) as [t ->]. cbn [bind].
  unfold tidy_coordinates.
  destruct (get_truthy g "coordinates" Tg) as [cs ->]. cbn [bind].
  destruct (is_str t "LineString"); cbn [orb].
  - intros H. unfold or_else.
    destruct (truthy cs); cbn [negb orb] in H; [ | eauto].
    destruct cs; try discriminate. eauto.
  - destruct (is_str t "MultiLineString"); [ | eauto].
    intros H. unfold or_else.
    destruct (truthy cs); cbn [negb orb] in H; [ | cbn; eauto].
    destruct cs; try discriminate. cbn. eauto.
Qed.

Lemma scan_features_tidy features :
  forallb tidy_feature features = true ->
  exists found,
    scan_features features = inr found /\
    forall c, found = Some c -> exists cs, c = VArr cs.
Proof.
  induction features as [ | f rest IH]; cbn [forallb scan_features]; intros H.
  - exists None. split; [reflexivity | discriminate].
  - apply andb_true_iff in H as [Hf Hrest]. unfold tidy_feature in Hf.
    apply andb_true_iff in Hf as [Hn Hg].
    destruct (get f "geometry") as [ | g]; [discriminate | ]. cbn [bind].
    destruct (extractCoordsFromGeometry_tidy g Hg) as [cs ->]. cbn [bind get].
    cbn [String.eqb Ascii.eqb Bool.eqb].
    destruct (truthy (VNum (num_of_nat (List.length cs)))).
    + exists (Some (VArr cs)). split; [reflexivity | ].
      intros c E. inversion E. eauto.
    + now apply IH.
Qed.

(** X5. On a tidy document (no [null] among the features, coordinates of
    line strings and multi line strings that are arrays or missing) the
    extractor raises no error and returns an array. *)
Theorem extractCoords_returns_on_tidy v :
  tidy_doc v = true ->
  exists cs, extractCoords v = inr (VArr cs).
Proof.
  unfold tidy_doc, extractCoords.
  destruct (truthy v) eqn:Tv; cbn [negb]; [ | eauto].
  destruct (get_truthy v "type" Tv) as [t Ht]. rewrite Ht. cbn [bind].
  destruct (is_str t "FeatureCollection") eqn:Efc.
  - destruct (get_truthy v "features" Tv) as [fs ->]. cbn [bind].
    assert (Et : t = VStr "FeatureCollection").
    { destruct t; try discriminate. cbn in Efc.
      apply String.eqb_eq in Efc. now subst. }
    subst t.
    assert (Hnot : is_str (VStr "FeatureCollection") "Feature" = false)
      by reflexivity.
    assert (Hfall : exists cs, extractCoordsFromGeometry v = inr (VArr cs)).
    { unfold extractCoordsFromGeometry. rewrite Tv, Ht. cbn. eauto. }
    unfold or_else. intros H.
    destruct (truthy fs) eqn:Tfs; cbn [negb orb] in H.
    + apply andb_true_iff in H as [Harr Hall].
      destruct fs; try discriminate. cbn [iterate bind items] in *.
      destruct (scan_features_tidy _ Hall) as (found & -> & Hfound).
      cbn [bind]. destruct found as [c | ].
      * destruct (Hfound c eq_refl) as [cs ->]. eauto.
      * rewrite Hnot. exact Hfall.
    + cbn [iterate bind scan_features]. rewrite Hnot. exact Hfall.
  - cbn [bind]. destruct (is_str t "Feature").
    + destruct (get_truthy v "geometry" Tv) as [g ->]. cbn [bind].
      apply extractCoordsFromGeometry_tidy.
    + apply extractCoordsFromGeometry_tidy.
Qed.

(** X6. [getFirstFeatureProps] raises no error on any value, and what it
    returns is [null] or truthy. *)
Theorem getFirstFeatureProps_null_or_truthy g :
  exists p, getFirstFeatureProps g = inr p /\ (p = VNull \/ truthy p = true).
Proof.
  assert (O : forall x, or_else x VNull = VNull \/ truthy (or_else x VNull) = true).
  { intros x. unfold or_else. destruct (truthy x) eqn:T; auto. }
  unfold getFirstFeatureProps.
  destruct (truthy g) eqn:Tg; cbn [negb]; [ | eauto].
  destruct (get_truthy g "type" Tg) as [t ->]. cbn [bind].
  destruct (is_str t "FeatureCollection").
  - destruct (get_truthy g "features" Tg) as [fs ->]. cbn [bind].
    destruct (truthy fs) eqn:Tfs; cbn [negb]; [ | eauto].
    assert (exists f0, get0 fs = inr f0) as [f0 ->]
      by (destruct fs; cbn in *; try discriminate; eauto).
    cbn [bind]. destruct (truthy f0) eqn:Tf0; cbn [negb]; [ | eauto].
    destruct (get_truthy f0 "properties" Tf0) as [p ->]. cbn [bind]. eauto.
  - destruct (is_str t "Feature"); [ | eauto].
    destruct (get_truthy g "properties" Tg) as [p ->]. cbn [bind]. eauto.
Qed.

End TidyDocuments.

(** ** More on the day loader *)

Section LoaderOutcome.

Variable host : Host.
Variables tripId dataRoot : string.

(** Once the body has parsed, the block has set [ok], the geometry and
    the day number, whatever happens next. *)
Lemma try_block_after_parse i u nf md me r0 res g p day :
  fetch host u = inr res ->
  res_ok res = true ->
  res_json res = inr g ->
  getFirstFeatureProps g = inr p ->
  embedded p "day" = inr day ->
  let r := fst (try_block host i u nf md me r0) in
  ok r = true /\ geojson r = g /\
  dayNumber r = match day with
                | Some d => d
                | None => VNum (num_of_nat i + 1)
                end.
Proof.
  intros Hf Hok Hj Hp Hd. unfold_try. rewrite Hf, Hok. cbn [negb].
  rewrite Hj, Hp, Hd. cbv beta iota.
  repeat (case_match; cbn [fst]; try (repeat split; reflexivity)).
Qed.

Lemma loaded_or_failed u :
  (exists err, load_failure host u = Some err) \/
  (load_failure host u = None /\
   exists res g, fetch host u = inr res /\ res_ok res = true /\
                 res_json res = inr g).
Proof.
  unfold load_failure.
  destruct (fetch host u) as [e | res]; [eauto | ].
  destruct (res_ok res) eqn:Eok; cbn [negb]; [ | eauto].
  destruct (res_json res) as [e | g] eqn:Ej; [eauto | ].
  right. split; [reflexivity | ]. exists res, g. auto.
Qed.

(** X7. For a day entry, [ok] says exactly that the resource was fetched
    with a success status and parsed; the result then carries the parsed
    body as its geometry. *)
Theorem ok_iff_resource_loaded entry i :
  is_day_entry entry = true ->
  exists r,
    loadDayGeoJSON host tripId dataRoot entry i = inr r /\
    (ok r = true <->
     load_failure host (resource_url tripId dataRoot entry) = None) /\
    (forall res g,
        fetch host (resource_url tripId dataRoot entry) = inr res ->
        res_ok res = true -> res_json res = inr g -> geojson r = g).
Proof.
  intros He.
  destruct (loader_of_entry host tripId dataRoot entry i He) as (nf & md & me & ->).
  cbn zeta.
  destruct (try_block _ _ _ _ _ _ _) as [r out] eqn:Et.
  exists (match out with
          | inl err => set_error (VStr (message err)) r
          | inr _ => r
          end).
  split; [destruct out; reflexivity | ].
  destruct (loaded_or_failed (resource_url tripId dataRoot entry))
    as [[err Hf] | (Hnone & res & g & Hfetch & Hok & Hjson)].
  - rewrite (try_block_failure host _ _ _ _ _ _ err Hf) in Et.
    inversion Et; subst. rewrite Hf. cbn. split.
    + split; discriminate.
    + intros res g Hfetch Hok Hjson. unfold load_failure in Hf.
      rewrite Hfetch, Hok in Hf. cbn [negb] in Hf. rewrite Hjson in Hf.
      discriminate.
  - destruct (getFirstFeatureProps_returns g) as [p Hp].
    destruct (embedded_returns p "day") as [day Hday].
    pose proof (try_block_after_parse i _ nf md me
                  (mkDayResult i (VStr (file_of entry))
                     (resource_url tripId dataRoot entry) false VNull
                     (VNum (num_of_nat i + 1)) (VNum 0) (VNum 0) VNull)
                  res g p day Hfetch Hok Hjson Hp Hday) as A.
    cbv zeta in A. rewrite Et in A. cbn [fst] in A. destruct A as (Aok & Ag & _).
    assert (Hr : forall x, ok x = ok r -> geojson x = geojson r ->
                           (ok x = true <-> load_failure host
                              (resource_url tripId dataRoot entry) = None) /\
                           (forall res0 g0,
                               fetch host (resource_url tripId dataRoot entry) = inr res0 ->
                               res_ok res0 = true -> res_json res0 = inr g0 ->
                               geojson x = g0)).
    { intros x Eo Eg. rewrite Eo, Eg, Aok, Ag, Hnone. split; [tauto | ].
      intros res0 g0 H1 H2 H3. congruence. }
    destruct out; apply Hr; reflexivity.
Qed.

(** X8. When the resource of a day entry loads, the day number is the
    [day] property of the first feature when it has one, and the position
    plus one otherwise, also when the statistics that follow fail. *)
Theorem dayNumber_of_loaded_day entry i res g p day :
  is_day_entry entry = true ->
  fetch host (resource_url tripId dataRoot entry) = inr res ->
  res_ok res = true ->
  res_json res = inr g ->
  getFirstFeatureProps g = inr p ->
  embedded p "day" = inr day ->
  exists r,
    loadDayGeoJSON host tripId dataRoot entry i = inr r /\
    dayNumber r = match day with
                  | Some d => d
                  | None => VNum (num_of_nat i + 1)
                  end.
Proof.
  intros He Hfetch Hok Hjson Hp Hday.
  destruct (loader_of_entry host tripId dataRoot entry i He) as (nf & md & me & ->).
  cbn zeta.
  pose proof (try_block_after_parse i _ nf md me
                (mkDayResult i (VStr (file_of entry))
                   (resource_url tripId dataRoot entry) false VNull
                   (VNum (num_of_nat i + 1)) (VNum 0) (VNum 0) VNull)
                res g p day Hfetch Hok Hjson Hp Hday) as A.
  destruct (try_block _ _ _ _ _ _ _) as [r out]. cbn [fst] in A.
  destruct A as (_ & _ & Ad).
  destruct out; eexists; (split; [reflexivity | exact Ad]).
Qed.

(** X9. Whatever the outcome, the result of a day entry keeps its
    identity: its position, the file the entry names and the URL built
    from the data root, the trip and the file. *)
Theorem result_identity entry i :
  is_day_entry entry = true ->
  exists r,
    loadDayGeoJSON host tripId dataRoot entry i = inr r /\
    index r = i /\
    filename r = VStr (file_of entry) /\
    url r = (dataRoot ++ "/" ++ tripId ++ "/" ++ file_of entry)%string.
Proof.
  intros He.
  destruct (loader_of_entry host tripId dataRoot entry i He) as (nf & md & me & ->).
  cbn zeta.
  match goal with
  | |- context [try_block ?h ?i ?u ?nf ?md ?me ?r0] =>
      pose proof (try_block_frame h i u nf md me r0) as F;
      destruct (try_block h i u nf md me r0) as [r out]
  end.
  cbn in F. destruct F as (Fi & Ff & Fu).
  destruct out; eexists; (split; [reflexivity | cbn; auto]).
Qed.

(** X10. A legacy entry whose distance is obtained and whose elevation
    step throws keeps the distance: the result is [ok], has that
    distance, elevation 0 and the message of the error. *)
Theorem distance_kept_when_elevation_throws s i res g p coords pd d e :
  fetch host (dataRoot ++ "/" ++ tripId ++ "/" ++ s)%string = inr res ->
  res_ok res = true ->
  res_json res = inr g ->
  getFirstFeatureProps g = inr p ->
  extractCoords g = inr coords ->
  embedded p "distance_miles" = inr pd ->
  match pd with Some x => inr x | None => calcDistance host coords end = inr d ->
  embedded p "elevation_gain_ft" = inr None ->
  calcElevationGain host coords = inl e ->
  exists r,
    loadDayGeoJSON host tripId dataRoot (VStr s) i = inr r /\
    ok r = true /\ distance r = d /\ elevation r = VNum 0 /\
    error r = VStr (message e).
Proof.
  intros Hfetch Hok Hjson Hp Hc Hpd Hd Hpe He.
  destruct (embedded_returns p "day") as [day Hday].
  eexists. split.
  - rewrite loader_of_string. cbn zeta. unfold_try.
    rewrite Hfetch, Hok. cbn [negb]. rewrite Hjson, Hp, Hday, Hc.
    cbv beta iota. rewrite Hpd. cbv beta iota.
    destruct pd as [x | ]; [inversion Hd; subst x | rewrite Hd]; cbv beta iota;
      rewrite Hpe; cbv beta iota; rewrite He; reflexivity.
  - repeat split.
Qed.

End LoaderOutcome.

(** X11. The result of a day entry depends on the host only through the
    response to the entry's own URL, the metric calculator and the
    printing of numbers: two hosts that agree on these give the same
    result. *)
Theorem result_depends_on_own_resource h1 h2 tripId dataRoot entry i :
  is_day_entry entry = true ->
  fetch h1 (resource_url tripId dataRoot entry) =
    fetch h2 (resource_url tripId dataRoot entry) ->
  calcDistance h1 = calcDistance h2 ->
  calcElevationGain h1 = calcElevationGain h2 ->
  NumberToString h1 = NumberToString h2 ->
  loadDayGeoJSON h1 tripId dataRoot entry i =
  loadDayGeoJSON h2 tripId dataRoot entry i.
Proof.
  intros He Hf Hcd Hce Hn.
  assert (T : forall nf md me r0,
             try_block h1 i (resource_url tripId dataRoot entry) nf md me r0 =
             try_block h2 i (resource_url tripId dataRoot entry) nf md me r0).
  { intros. unfold_try. rewrite Hf, Hcd, Hce, Hn. reflexivity. }
  destruct entry as [ | | b | q | s | l | fs]; try discriminate.
  - rewrite !loader_of_string. cbn zeta.
    change (dataRoot ++ "/" ++ tripId ++ "/" ++ s)%string
      with (resource_url tripId dataRoot (VStr s)).
    now rewrite T.
  - cbn in He.
    destruct (lookup "file" fs) as [[ | | | | s | | ] | ] eqn:E; try discriminate.
    rewrite !(loader_of_manual _ tripId dataRoot fs s i E). cbn zeta.
    assert (U : (dataRoot ++ "/" ++ tripId ++ "/" ++ s)%string =
                resource_url tripId dataRoot (VObj fs))
      by (unfold resource_url, file_of; now rewrite E).
    rewrite U. now rewrite T.
Qed.

(** ** More on the entry point *)

Section PageRuns.

Variable host : Host.
Variables tripId dataRoot : string.

(** X12. When the metadata cannot be loaded (the fetch is rejected, the
    status is not a success or the body does not parse) the run shows
    the metadata error and returns: no header is written and no day is
    fetched. *)
Theorem metadata_failure_stops_page sched :
  let metaUrl := (dataRoot ++ "/" ++ tripId ++ "/meta.json")%string in
  (forall e,
      fetch host metaUrl = inl e ->
      initTripPage host tripId dataRoot sched =
        ([EvFetch metaUrl; EvShowMetaError (message e)], inl EarlyReturn)) /\
  (forall res,
      fetch host metaUrl = inr res -> res_ok res = false ->
      initTripPage host tripId dataRoot sched =
        ([ EvFetch metaUrl;
           EvShowMetaError ("HTTP " ++ NumberToString host (res_status res)
                            ++ " fetching " ++ metaUrl)%string ],
         inl EarlyReturn)) /\
  (forall res e,
      fetch host metaUrl = inr res -> res_ok res = true ->
      res_json res = inl e ->
      initTripPage host tripId dataRoot sched =
        ([EvFetch metaUrl; EvShowMetaError (message e)], inl EarlyReturn)).
Proof.
  intros metaUrl. unfold initTripPage, load_meta. fold metaUrl.
  split; [ | split].
  - intros e H. rewrite H. reflexivity.
  - intros res H Hok. rewrite H. cbn [bind]. rewrite Hok. reflexivity.
  - intros res e H Hok Hj. rewrite H. cbn [bind]. rewrite Hok. cbn [negb].
    rewrite Hj. reflexivity.
Qed.

(** X13. A metadata document that is [null] loads, and the first read of
    a property of it throws: the run ends with an uncaught [TypeError],
    with nothing shown, not even the metadata error. *)
Theorem null_metadata_is_uncaught sched res :
  let metaUrl := (dataRoot ++ "/" ++ tripId ++ "/meta.json")%string in
  fetch host metaUrl = inr res ->
  res_ok res = true ->
  res_json res = inr VNull ->
  initTripPage host tripId dataRoot sched =
    ([EvFetch metaUrl],
     inl (Thrown (TypeError "Cannot read properties of null (reading 'title')"))).
Proof.
  intros metaUrl H Hok Hj. unfold initTripPage, load_meta. fold metaUrl.
  rewrite H. cbn [bind]. rewrite Hok. cbn [negb]. rewrite Hj. reflexivity.
Qed.

Lemma loader_url entry i r :
  is_day_entry entry = true ->
  loadDayGeoJSON host tripId dataRoot entry i = inr r ->
  url r = resource_url tripId dataRoot entry.
Proof.
  intros He.
  destruct (loader_of_entry host tripId dataRoot entry i He) as (nf & md & me & ->).
  cbn zeta.
  match goal with
  | |- context [try_block ?h ?i ?u ?nf ?md ?me ?r0] =>
      pose proof (try_block_frame h i u nf md me r0) as F;
      destruct (try_block h i u nf md me r0) as [r' out]
  end.
  cbn in F. destruct F as (_ & _ & Fu).
  destruct out; intros E; inversion E; subst; cbn; exact Fu.
Qed.

(** The promises of the fan-out, for day entries: all fulfilled, with the
    loaders' results, whose URLs are those of the entries. *)
Lemma promises_of_day_entries dayFiles :
  Forall (fun e => is_day_entry e = true) dayFiles ->
  exists rs,
    map_index (loadDayGeoJSON host tripId dataRoot) dayFiles = map inr rs /\
    List.length rs = List.length dayFiles /\
    (forall i entry,
        nth_error dayFiles i = Some entry ->
        exists r, nth_error rs i = Some r /\
                  loadDayGeoJSON host tripId dataRoot entry i = inr r) /\
    map url rs = map (resource_url tripId dataRoot) dayFiles.
Proof.
  intros Hall.
  destruct (all_inr (map_index (loadDayGeoJSON host tripId dataRoot) dayFiles))
    as [rs Hrs].
  { intros p Hp'. apply In_nth_error in Hp' as [i Hi].
    rewrite nth_error_map_index in Hi.
    destruct (nth_error dayFiles i) as [e | ] eqn:Ee; [ | discriminate].
    cbn in Hi. inversion Hi; subst.
    apply loader_returns. rewrite Forall_forall in Hall.
    apply Hall. eapply nth_error_In; eauto. }
  assert (Hlen : List.length rs = List.length dayFiles).
  { rewrite <- (map_index_length (loadDayGeoJSON host tripId dataRoot) dayFiles).
    rewrite Hrs. now rewrite length_map. }
  assert (Hnth : forall i entry,
             nth_error dayFiles i = Some entry ->
             exists r, nth_error rs i = Some r /\
                       loadDayGeoJSON host tripId dataRoot entry i = inr r).
  { intros i entry Hi.
    pose proof (nth_error_map_index (loadDayGeoJSON host tripId dataRoot) dayFiles i) as E.
    rewrite Hrs, nth_error_map, Hi in E. cbn in E.
    destruct (nth_error rs i) as [r | ]; [ | discriminate].
    exists r. cbn in E. split; congruence. }
  exists rs. repeat split; auto.
  apply nth_error_ext. intros i. rewrite !nth_error_map.
  destruct (nth_error dayFiles i) as [e | ] eqn:Ee.
  - destruct (Hnth i e Ee) as (r & Hr & Hl). rewrite Hr. cbn. f_equal.
    apply (loader_url e i r); auto.
    rewrite Forall_forall in Hall. apply Hall. eapply nth_error_In; eauto.
  - apply nth_error_None in Ee.
    rewrite (proj2 (nth_error_None rs i)) by lia. reflexivity.
Qed.

(** X14. With a metadata object whose title prints and whose [days] is a
    non-empty array of day entries, and totals that stay within the
    numbers modelled, the run is: the metadata fetch, the header, one
    fetch per entry in the order of the entries, the three totals, then
    the call of [buildDayTable] with every day's result in the order of
    the entries, failed days included. *)
Theorem page_renders_all_days sched res fs t dayFiles :
  let metaUrl := (dataRoot ++ "/" ++ tripId ++ "/meta.json")%string in
  fetch host metaUrl = inr res ->
  res_ok res = true ->
  res_json res = inr (VObj fs) ->
  ToString host (or_else (field fs "title") (VStr tripId)) = inr t ->
  field fs "days" = VArr dayFiles ->
  dayFiles <> [] ->
  Forall (fun e => is_day_entry e = true) dayFiles ->
  Permutation sched (seq 0%nat (List.length dayFiles)) ->
  exists rs,
    List.length rs = List.length dayFiles /\
    (forall i entry,
        nth_error dayFiles i = Some entry ->
        exists r, nth_error rs i = Some r /\
                  loadDayGeoJSON host tripId dataRoot entry i = inr r) /\
    forall totalDistance totalElevation text,
      trip_totals rs = Some (totalDistance, totalElevation) ->
      rounds_to_negative_zero totalElevation = false ->
      vertPerMile host totalDistance totalElevation = Some text ->
      initTripPage host tripId dataRoot sched =
        ([ EvFetch metaUrl;
           EvSetText "trip-title" (or_else (field fs "title") (VStr tripId));
           EvSetText "trip-description" (or_else (field fs "description") (VStr ""));
           EvSetText "trip-start-date" (formatDate host (field fs "start_date"));
           EvSetText "trip-end-date" (formatDate host (field fs "end_date"));
           EvSetText "trip-elapsed"
             (calcElapsedTime host (field fs "start_date") (field fs "start_time")
                              (field fs "end_date") (field fs "end_time"));
           EvSetTitle (t ++ " — Hiking Journal")%string ]
         ++ map (fun e => EvFetch (resource_url tripId dataRoot e)) dayFiles
         ++ [ EvSetText "trip-total-distance"
                (VStr (toFixed1 host totalDistance ++ " mi")%string);
              EvSetText "trip-total-elevation"
                (VStr (formatNumber host
                         (VNum (inject_Z (Math_round totalElevation))) ++ " ft")%string);
              EvSetText "trip-vert-per-mile" (VStr text);
              EvBuildDayTable rs ],
         inl HandedOver).
Proof.
  intros metaUrl Hfetch Hok Hjson Ht Hdays Hne Hall Hp.
  destruct (promises_of_day_entries dayFiles Hall) as (rs & Hrs & Hlen & Hnth & Hurl).
  exists rs. split; [exact Hlen | ]. split; [exact Hnth | ].
  intros td te text Htot Hround Hvert.
  assert (Hfetches :
            flat_map (fun p : Res DayResult =>
                        match p with
                        | inr r => [EvFetch (url r)]
                        | inl _ => []
                        end) (map inr rs) =
            map (fun e => EvFetch (resource_url tripId dataRoot e)) dayFiles).
  { rewrite <- (map_map (resource_url tripId dataRoot) EvFetch), <- Hurl.
    clear. induction rs as [ | r rs IH]; cbn; [reflexivity | now rewrite IH]. }
  assert (Hrd : render_days host tripId dataRoot (VObj fs) sched =
                (map (fun e => EvFetch (resource_url tripId dataRoot e)) dayFiles
                 ++ [ EvSetText "trip-total-distance"
                        (VStr (toFixed1 host td ++ " mi")%string);
                      EvSetText "trip-total-elevation"
                        (VStr (formatNumber host
                                 (VNum (inject_Z (Math_round te))) ++ " ft")%string);
                      EvSetText "trip-vert-per-mile" (VStr text);
                      EvBuildDayTable rs ],
                 inl HandedOver)).
  { unfold render_days. cbn [get eff_res eff_bind]. fold (field fs "days").
    rewrite Hdays. cbn [isArray items].
    destruct dayFiles as [ | d ds]; [congruence | ].
    cbn [List.length Nat.eqb]. unfold loadAllDays. rewrite Hrs.
    rewrite Promise_all_fulfilled by (now rewrite Hlen).
    rewrite Htot, Hround, Hvert. cbn [eff_bind emit stop app].
    do 2 f_equal. exact Hfetches. }
  unfold initTripPage. fold metaUrl. unfold load_meta.
  rewrite Hfetch. cbn [bind]. rewrite Hok. cbn [negb]. rewrite Hjson.
  rewrite (render_header_of_object host tripId fs t Ht), Hrd. reflexivity.
Qed.

(** X15. When every day failed the totals are 0 and 0 and the vert per
    mile is the dash. *)
Theorem all_days_failed_totals dayResults :
  Forall (fun r => ok r = false) dayResults ->
  trip_totals dayResults = Some (0, 0) /\
  forall totalElevation, vertPerMile host 0 totalElevation = Some "—".
Proof.
  intros H. split; [ | reflexivity].
  unfold trip_totals.
  assert (E : filter ok dayResults = []).
  { induction H as [ | r rs Hr _ IH]; cbn; [reflexivity | now rewrite Hr]. }
  now rewrite E.
Qed.

End PageRuns.

(** ** The map *)

Section MapProperties.

Variable mh : MapHost.

Lemma nth_last_index (l : list value) :
  nth (List.length l - 1) l VUndef = last l VUndef.
Proof.
  destruct l as [ | x l]; [reflexivity | ].
  destruct (exists_last (l := x :: l)) as (l' & a & E); [discriminate | ].
  rewrite E, last_last, length_app. cbn [List.length].
  replace (List.length l' + 1 - 1)%nat with (List.length l') by lia.
  apply nth_middle.
Qed.

Lemma last_app_nonempty (a : list value) c cs :
  last (a ++ c :: cs) VUndef = last (c :: cs) VUndef.
Proof.
  induction a as [ | x a IH]; [reflexivity | ].
  cbn [app]. destruct (a ++ c :: cs) eqn:E.
  - destruct a; discriminate.
  - rewrite <- IH. reflexivity.
Qed.

Lemma latlng_at_array cs n l :
  nth n cs VUndef = VArr l ->
  latlng_at (VArr cs) n = inr (latlng (VArr l)).
Proof. intros H. unfold latlng_at. cbn [get_at bind]. now rewrite H. Qed.

Lemma last_is_array c cs :
  Forall is_array_value (c :: cs) -> is_array_value (last (c :: cs) VUndef).
Proof.
  intros H. rewrite Forall_forall in H. apply H.
  assert (G : forall (l : list value) x, In (last (x :: l) VUndef) (x :: l)).
  { induction l as [ | y l IH]; intros x; [now left | ].
    right. apply (IH y). }
  apply G.
Qed.

(** One more day whose coordinates are an array of arrays. *)
Lemma day_ends_step acc doc cs :
  Forall is_array_value acc ->
  extractCoords doc = inr (VArr cs) ->
  Forall is_array_value cs ->
  day_ends (fst (route_ends acc)) (snd (route_ends acc)) doc =
  inr (route_ends (acc ++ cs)).
Proof.
  intros Hacc Hc Hcs. unfold day_ends. rewrite Hc. cbn [get].
  cbn [String.eqb Ascii.eqb Bool.eqb]. rewrite truthy_length_of_array.
  destruct cs as [ | c cs]; cbn [negb].
  - rewrite app_nil_r. now destruct (route_ends acc).
  - destruct (last_is_array c cs Hcs) as [ll Hll].
    assert (Hend : latlng_at (VArr (c :: cs)) (List.length (c :: cs) - 1) =
                   inr (latlng (last (c :: cs) VUndef))).
    { rewrite Hll. apply latlng_at_array. now rewrite nth_last_index. }
    cbn [last_index]. rewrite Hend.
    destruct acc as [ | a acc].
    + cbn [route_ends fst snd app].
      inversion Hcs as [ | ? ? [l0 Hl0] _]; subst.
      rewrite (latlng_at_array (VArr l0 :: cs) 0%nat l0 eq_refl). reflexivity.
    + inversion Hacc as [ | ? ? [la Hla] _]; subst.
      cbn [route_ends fst snd app latlng].
      change (VArr la :: acc ++ c :: cs) with ((VArr la :: acc) ++ c :: cs).
      rewrite last_app_nonempty. reflexivity.
Qed.

(** The loop on drawable days: one layer per day, no other call, and the
    variables it leaves. *)
Lemma map_days_drawable days :
  drawable days ->
  forall acc bs,
    Forall is_array_value acc ->
    map_days mh days (route_ends acc, bs) =
    (map (day_layer mh) days,
     inr (route_ends (acc ++ flat_map day_coords days),
          bs ++ valid_bounds mh days)).
Proof.
  induction days as [ | d days IH]; intros Hd acc bs Hacc.
  - cbn. now rewrite !app_nil_r.
  - destruct (Hd d (or_introl eq_refl)) as (cs & Hc & Hcs).
    cbn [map_days]. destruct (route_ends acc) as [sc ec] eqn:Er.
    pose proof (day_ends_step acc (geojson d) cs Hacc Hc Hcs) as Hs.
    rewrite Er in Hs. cbn [fst snd] in Hs. rewrite Hs.
    destruct (route_ends (acc ++ cs)) as [sc' ec'] eqn:Er'.
    rewrite <- Er'.
    rewrite (IH (fun x Hx => Hd x (or_intror Hx)) (acc ++ cs)).
    + cbn [map flat_map valid_bounds]. unfold day_coords at 2. rewrite Hc.
      rewrite <- !app_assoc. unfold day_layer at 2.
      destruct (layer_bounds mh (geojson d)); cbn [app];
        rewrite <- ?app_assoc; reflexivity.
    + apply Forall_app. now split.
Qed.

Lemma pulse_markers_layers days :
  pulse_markers (map (day_layer mh) days) = [].
Proof. induction days as [ | d days IH]; [reflexivity | exact IH]. Qed.

Lemma view_events_layers days :
  view_events (map (day_layer mh) days) = [].
Proof. induction days as [ | d days IH]; [reflexivity | exact IH]. Qed.

Lemma route_ends_truthy acc :
  Forall is_array_value acc ->
  match acc with
  | [] => route_ends acc = (VNull, VNull)
  | _ :: _ => truthy (fst (route_ends acc)) = true /\
              truthy (snd (route_ends acc)) = true
  end.
Proof.
  intros H. destruct acc as [ | c acc]; [reflexivity | ].
  destruct (last_is_array c acc H) as [ll Hll].
  inversion H as [ | ? ? [l0 Hl0] _]; subst.
  cbn [route_ends fst snd]. rewrite Hll. now split.
Qed.

Lemma drawable_route days :
  drawable days -> Forall is_array_value (flat_map day_coords days).
Proof.
  intros Hd. induction days as [ | d days IH]; [constructor | ].
  cbn [flat_map]. apply Forall_app. split.
  - destruct (Hd d (or_introl eq_refl)) as (cs & Hc & Hcs).
    unfold day_coords. now rewrite Hc.
  - apply IH. intros x Hx. apply Hd. now right.
Qed.

(** What [buildMap] does on drawable days. *)
Lemma buildMap_drawable dayResults :
  has_element mh "trip-map" = true ->
  drawable (filter valid_for_map dayResults) ->
  buildMap mh dayResults =
  ([ MapCreate "trip-map";
     MapTileLayer "https://server.arcgisonline.com/ArcGIS/rest/services/World_Imagery/MapServer/tile/{z}/{y}/{x}";
     MapTileLayer "https://server.arcgisonline.com/ArcGIS/rest/services/Reference/World_Boundaries_and_Places/MapServer/tile/{z}/{y}/{x}" ]
   ++ map (day_layer mh) (filter valid_for_map dayResults)
   ++ match valid_bounds mh (filter valid_for_map dayResults) with
      | b :: bs => [MapFitBounds (fold_left (extend mh) bs b)]
      | [] => [ MapSetView (79 # 2) (- (1967 # 20)) 4;
                MapShowError "Could not determine route bounds." ]
      end
   ++ match route dayResults with
      | [] => []
      | c :: _ => [ MapPulseMarker (latlng c) "start";
                    MapPulseMarker (latlng (last (route dayResults) VUndef)) "end" ]
      end
   ++ (if has_element mh "map-loading" then [MapRemoveLoading] else []),
   inr tt).
Proof.
  intros Hel Hd. unfold buildMap. rewrite Hel. cbn [negb].
  change (filter (fun d => ok d && truthy (geojson d)) dayResults)
    with (filter valid_for_map dayResults).
  change (VNull, VNull, @nil (Bounds mh))
    with (route_ends [], @nil (Bounds mh)).
  rewrite (map_days_drawable _ Hd [] [] (Forall_nil _)).
  cbn [app]. fold (route dayResults).
  pose proof (route_ends_truthy (route dayResults) (drawable_route _ Hd)) as T.
  destruct (route dayResults) as [ | c r] eqn:Er.
  - cbn [route_ends truthy app]. reflexivity.
  - destruct T as [T1 T2].
    destruct (route_ends (c :: r)) as [sc ec] eqn:Ee.
    cbn [fst snd] in T1, T2. rewrite T1, T2.
    cbn [route_ends] in Ee. inversion Ee; subst. reflexivity.
Qed.

(** X16. When the days the map draws have coordinates that are arrays of
    arrays, the start marker is put at the first coordinate of the first
    such day that has any, the end marker at the last coordinate of the
    last one, each as latitude then longitude; with no coordinate at all
    there is no marker. *)
Theorem map_markers_at_route_ends dayResults :
  has_element mh "trip-map" = true ->
  drawable (filter valid_for_map dayResults) ->
  exists evs,
    buildMap mh dayResults = (evs, inr tt) /\
    pulse_markers evs =
    match route dayResults with
    | [] => []
    | c :: _ => [ (latlng c, "start");
                  (latlng (last (route dayResults) VUndef), "end") ]
    end.
Proof.
  intros Hel Hd. eexists. split; [apply (buildMap_drawable _ Hel Hd) | ].
  unfold pulse_markers. rewrite !flat_map_app.
  fold (pulse_markers (map (day_layer mh) (filter valid_for_map dayResults))).
  rewrite pulse_markers_layers.
  destruct (valid_bounds mh (filter valid_for_map dayResults));
    destruct (route dayResults);
    destruct (has_element mh "map-loading"); reflexivity.
Qed.

(** X17. On the same days the map is fitted to the valid bounds of the
    layers, extended in the order of the days; when no layer has valid
    bounds (in particular when no day is ok) the view is set to
    [39.5, -98.35] at zoom 4 and the error "Could not determine route
    bounds." is shown. *)
Theorem map_fits_valid_bounds dayResults :
  has_element mh "trip-map" = true ->
  drawable (filter valid_for_map dayResults) ->
  exists evs,
    buildMap mh dayResults = (evs, inr tt) /\
    view_events evs =
    match valid_bounds mh (filter valid_for_map dayResults) with
    | b :: bs => [MapFitBounds (fold_left (extend mh) bs b)]
    | [] => [ MapSetView (79 # 2) (- (1967 # 20)) 4;
              MapShowError "Could not determine route bounds." ]
    end.
Proof.
  intros Hel Hd. eexists. split; [apply (buildMap_drawable _ Hel Hd) | ].
  unfold view_events. rewrite !flat_map_app.
  fold (view_events (map (day_layer mh) (filter valid_for_map dayResults))).
  rewrite view_events_layers.
  destruct (valid_bounds mh (filter valid_for_map dayResults));
    destruct (route dayResults);
    destruct (has_element mh "map-loading"); reflexivity.
Qed.

End MapProperties.

(** ** Further instances at sample inputs *)

Lemma escapeHtml_injective_witness : "a<b & c" = "a<b & c".
Proof.
  apply (escapeHtml_injective line_host "a<b & c" "a<b & c"). reflexivity.
Defined.

Lemma extractCoords_returns_on_tidy_witness :
  exists cs, extractCoords (VObj collection_fields) = inr (VArr cs).
Proof.
  apply (extractCoords_returns_on_tidy (VObj collection_fields)). reflexivity.
Defined.

Lemma ok_iff_resource_loaded_witness :
  exists r,
    loadDayGeoJSON line_host "trip" "../data" (VStr "day-2.geojson") 1 = inr r /\
    ok r = false.
Proof.
  destruct (ok_iff_resource_loaded line_host "trip" "../data"
              (VStr "day-2.geojson") 1%nat eq_refl) as (r & Hr & Hok & _).
  exists r. split; [exact Hr | ].
  destruct (ok r); [ | reflexivity].
  destruct Hok as [Hok _]. specialize (Hok eq_refl). discriminate Hok.
Defined.

Lemma dayNumber_of_loaded_day_witness :
  exists r,
    loadDayGeoJSON collection_host "trip" "../data" (VStr "day-1.geojson") 0 = inr r /\
    dayNumber r = VNum 7.
Proof.
  apply (dayNumber_of_loaded_day collection_host "trip" "../data"
           (VStr "day-1.geojson") 0%nat
           (mkResponse true 200 (inr (VObj collection_fields)))
           (VObj collection_fields) (VObj [ ("day", VNum 7) ]) (Some (VNum 7)));
    reflexivity.
Defined.

Lemma result_identity_witness :
  exists r,
    loadDayGeoJSON line_host "trip" "../data" (manual_entry (VNum 3) VNull) 4 = inr r /\
    index r = 4%nat /\
    filename r = VStr "day-1.geojson" /\
    url r = "../data/trip/day-1.geojson".
Proof.
  apply (result_identity line_host "trip" "../data" (manual_entry (VNum 3) VNull) 4).
  reflexivity.
Defined.

Lemma distance_kept_when_elevation_throws_witness :
  exists r,
    loadDayGeoJSON no_elevation_host "trip" "../data" (VStr "day-1.geojson") 0 = inr r /\
    ok r = true /\ distance r = VNum (71 # 5) /\ elevation r = VNum 0 /\
    error r = VStr "no elevation".
Proof.
  apply (distance_kept_when_elevation_throws no_elevation_host "trip" "../data"
           "day-1.geojson" 0%nat (mkResponse true 200 (inr line_doc)) line_doc
           (VObj [ ("distance_miles", VNum (71 # 5)) ]) (VArr line_coords)
           (Some (VNum (71 # 5))) (VNum (71 # 5)) (Error "no elevation"));
    reflexivity.
Defined.

Lemma result_depends_on_own_resource_witness :
  loadDayGeoJSON line_host "trip" "../data" (VStr "day-1.geojson") 0 =
  loadDayGeoJSON (sample_host [ (day1_url, ok_json line_doc);
                                (day2_url, ok_json null_feature_doc) ])
                 "trip" "../data" (VStr "day-1.geojson") 0.
Proof.
  apply result_depends_on_own_resource; reflexivity.
Defined.

Lemma metadata_failure_stops_page_witness :
  initTripPage line_host "trip" "../data" [] =
    ([EvFetch meta_url; EvShowMetaError "Failed to fetch"], inl EarlyReturn).
Proof.
  destruct (metadata_failure_stops_page line_host "trip" "../data" [])
    as (Rejected & _ & _).
  apply (Rejected (TypeError "Failed to fetch")). reflexivity.
Defined.

Lemma null_metadata_is_uncaught_witness :
  initTripPage (sample_host [(meta_url, ok_json VNull)]) "trip" "../data" [] =
    ([EvFetch meta_url],
     inl (Thrown (TypeError "Cannot read properties of null (reading 'title')"))).
Proof.
  apply (null_metadata_is_uncaught (sample_host [(meta_url, ok_json VNull)])
           "trip" "../data" [] (mkResponse true 200 (inr VNull)));
    reflexivity.
Defined.

Lemma page_renders_all_days_witness :
  exists rs,
    List.length rs = 2%nat /\
    exists r, nth_error rs 1 = Some r /\
              loadDayGeoJSON trip_host "trip" "../data"
                             (manual_entry (VNum (117 # 10)) (VNum 2100)) 1 = inr r.
Proof.
  destruct (page_renders_all_days trip_host "trip" "../data" [1; 0]%nat
              (mkResponse true 200 (inr (VObj trip_fields))) trip_fields "Loop"
              trip_days)
    as (rs & Hlen & Hnth & _); try reflexivity.
  - discriminate.
  - repeat constructor.
  - apply perm_swap.
  - exists rs. split; [exact Hlen | ]. apply (Hnth 1%nat). reflexivity.
Defined.

Lemma all_days_failed_totals_witness :
  trip_totals [failed_day_result] = Some (0, 0).
Proof.
  apply (all_days_failed_totals line_host [failed_day_result]).
  repeat constructor.
Defined.

Lemma map_days_sample_drawable :
  drawable (filter valid_for_map map_days_sample).
Proof.
  intros d Hd. cbn in Hd. destruct Hd as [<- | [<- | []]];
    eexists; (split; [vm_compute; reflexivity | ]);
    repeat constructor; eexists; reflexivity.
Defined.

Lemma map_markers_at_route_ends_witness :
  exists evs,
    buildMap sample_map_host map_days_sample = (evs, inr tt) /\
    pulse_markers evs =
      [ (VArr [VNum 0; VNum 0], "start"); (VArr [VNum 8; VNum 7], "end") ].
Proof.
  apply (map_markers_at_route_ends sample_map_host map_days_sample eq_refl
           map_days_sample_drawable).
Defined.

Lemma map_fits_valid_bounds_witness :
  exists evs,
    buildMap sample_map_host map_days_sample = (evs, inr tt) /\
    view_events evs = [MapFitBounds [line2_doc]].
Proof.
  apply (map_fits_valid_bounds sample_map_host map_days_sample eq_refl
           map_days_sample_drawable).
Defined.

Lemma loader_not_ok_witness :
  geojson failed_day_result = VNull /\
  distance failed_day_result = VNum 0 /\
  elevation failed_day_result = VNum 0.
Proof.
  destruct (loader_not_ok line_host "trip" "../data" (VStr "day-2.geojson")
              1%nat failed_day_result eq_refl) as [_ H].
  destruct (H eq_refl) as (Hg & Hd & He & _). repeat split; assumption.
Defined.

Lemma legacy_stats_when_nothing_throws_witness :
  exists r,
    loadDayGeoJSON line_host "trip" "../data" (VStr "day-1.geojson") 0 = inr r /\
    ok r = true /\ geojson r = line_doc /\ error r = VNull /\
    distance r = VNum (71 # 5) /\ elevation r = VNum 0.
Proof.
  apply (legacy_stats_when_nothing_throws line_host "trip" "../data"
           "day-1.geojson" 0%nat (mkResponse true 200 (inr line_doc)) line_doc
           (VObj [ ("distance_miles", VNum (71 # 5)) ]) (VArr line_coords)
           (Some (VNum (71 # 5))) None (VNum (71 # 5)) (VNum 0));
    reflexivity.
Defined.

Lemma ok_with_error_origin_witness :
  (exists e, extractCoords (geojson null_feature_day_result) = inl e /\
             error null_feature_day_result = VStr (message e)) \/
  (exists c e, extractCoords (geojson null_feature_day_result) = inr c /\
               calcDistance null_feature_host c = inl e /\
               error null_feature_day_result = VStr (message e)) \/
  (exists c e, extractCoords (geojson null_feature_day_result) = inr c /\
               calcElevationGain null_feature_host c = inl e /\
               error null_feature_day_result = VStr (message e)).
Proof.
  apply (ok_with_error_origin null_feature_host "trip" "../data"
           (VStr "day-1.geojson") 0%nat null_feature_day_result).
  - reflexivity.
  - reflexivity.
  - discriminate.
Defined.
